(** * Swarms coordinator: memory store, hook gateway, sequential dispatch

    A shallow embedding of [swarms_config.py] (class [TerminalDebugSwarm])
    and [swarms_coordinator.py] (class [SwarmsClaudeFlowCoordinator]),
    followed by the properties of the coordination core.

    Conventions of the embedding:
    - Python values are the inductive [PyVal]; a [dict] is an association
      list kept in insertion order, updated the way Python updates it.
    - a Python [str] is the string of its UTF-8 bytes; slicing counts
      characters, not bytes.
    - [json.dumps] / [json.loads] are library functions; they are modelled
      on JSON documents ([Json]), the TEXT column of the store holding the
      document that was written. Both raise where the interpreter's
      limits are passed: the digits of an integer
      ([sys.get_int_max_str_digits()]) and the nesting that the recursion
      limit allows.
    - the SQLite file at [memory_db_path] is an optional table
      ([None]: the file does not exist) from keys to rows.
    - the three external collaborators (worker analysis, hook process,
      wall clock) are operations of the class [External] over an abstract
      world; every function that calls them threads the world. The class
      also carries the two limits of the interpreter that runs the
      program.

    Assumptions of the embedding:
    - storage I/O works: a write fails only when [json.dumps] raises, a
      read returns [None] only for a missing file, a missing row or a
      text that does not decode;
    - the two limits are the same for every call, and the nesting limit
      is the same for the encoder and the decoder;
    - the database file is written by this program only;
    - constructing the swarm and its agents does not raise;
    - an exception is an [Exception] (what [except Exception] catches). *)

From Stdlib Require Import ZArith Ascii String List Floats.
From stdpp Require Import gmap strings list pretty.

Local Open Scope string_scope.
Set Warnings "-register-all".

(** ** Python values *)

(** Dictionary keys that occur in the program: strings, and integers as
    the one kind of non-string key that [json.dumps] accepts and coerces. *)
Inductive PyKey :=
| KStr (s : string)
| KInt (z : Z).

Global Instance PyKey_eq_dec : EqDecision PyKey.
Proof. solve_decision. Defined.

Inductive PyVal :=
| PNone
| PBool (b : bool)
| PInt (z : Z)
| PFloat (f : float)
| PStr (s : string)
| PList (l : list PyVal)
| PTuple (l : list PyVal)
| PDict (d : list (PyKey * PyVal))
| PObject (tag : string).   (* a set, bytes, a class instance, ... *)

Abbreviation PyDict := (list (PyKey * PyVal)).

(** Induction principle that reaches under lists and dictionaries. *)
Section PyVal_induction.
Variable P : PyVal -> Prop.
Hypothesis HNone : P PNone.
Hypothesis HBool : forall b, P (PBool b).
Hypothesis HInt : forall z, P (PInt z).
Hypothesis HFloat : forall f, P (PFloat f).
Hypothesis HStr : forall s, P (PStr s).
Hypothesis HList : forall l, Forall P l -> P (PList l).
Hypothesis HTuple : forall l, Forall P l -> P (PTuple l).
Hypothesis HDict : forall d, Forall (fun kv => P (snd kv)) d -> P (PDict d).
Hypothesis HObject : forall t, P (PObject t).

Fixpoint PyVal_deep_ind (v : PyVal) : P v :=
  match v with
  | PNone => HNone
  | PBool b => HBool b
  | PInt z => HInt z
  | PFloat f => HFloat f
  | PStr s => HStr s
  | PList l =>
      HList l ((fix go (l : list PyVal) : Forall P l :=
                  match l with
                  | [] => @List.Forall_nil _ P
                  | x :: l' => @List.Forall_cons _ P x l' (PyVal_deep_ind x) (go l')
                  end) l)
  | PTuple l =>
      HTuple l ((fix go (l : list PyVal) : Forall P l :=
                   match l with
                   | [] => @List.Forall_nil _ P
                   | x :: l' => @List.Forall_cons _ P x l' (PyVal_deep_ind x) (go l')
                   end) l)
  | PDict d =>
      HDict d ((fix go (d : PyDict) : Forall (fun kv => P (snd kv)) d :=
                  match d with
                  | [] => @List.Forall_nil _ _
                  | kv :: d' =>
                      @List.Forall_cons _ (fun kv => P (snd kv)) kv d'
                        (PyVal_deep_ind (snd kv)) (go d')
                  end) d)
  | PObject t => HObject t
  end.
End PyVal_induction.

(** *** Dictionaries in insertion order *)

Section dict.
Context {K V : Type} `{EqDecision K}.

(** [d.get(k)] *)
Fixpoint dict_get (k : K) (d : list (K * V)) : option V :=
  match d with
  | [] => None
  | (k', v) :: d' => if decide (k = k') then Some v else dict_get k d'
  end.

(** [d[k] = v]: an existing key keeps its position, a new key goes last. *)
Fixpoint dict_set (k : K) (v : V) (d : list (K * V)) : list (K * V) :=
  match d with
  | [] => [(k, v)]
  | (k', v') :: d' =>
      if decide (k = k') then (k', v) :: d' else (k', v') :: dict_set k v d'
  end.

(** [dict(pairs)]: the pairs are stored from left to right. *)
Definition dict_of_items (items : list (K * V)) : list (K * V) :=
  fold_left (fun d kv => dict_set (fst kv) (snd kv) d) items [].

Definition dict_keys (d : list (K * V)) : list K := map fst d.
End dict.

(** Truth value of an object, as [if x:] and [x or y] take it. *)
Definition py_truthy (v : PyVal) : bool :=
  match v with
  | PNone => false
  | PBool b => b
  | PInt z => negb (z =? 0)%Z
  | PFloat f => negb (f =? 0)%float
  | PStr s => negb (String.eqb s "")
  | PList l | PTuple l => negb (Nat.eqb (length l) 0)
  | PDict d => negb (Nat.eqb (length d) 0)
  | PObject _ => true
  end.

(** [a == b] on values: numbers compare by value ([True == 1],
    [1 == 1.0], and no NaN equals anything), sequences element by element
    and only with their own kind, dictionaries regardless of order. *)
Inductive PyNum :=
| NInt (z : Z)
| NFloat (f : float).

Definition py_num (v : PyVal) : option PyNum :=
  match v with
  | PBool b => Some (NInt (if b then 1 else 0))
  | PInt z => Some (NInt z)
  | PFloat f => Some (NFloat f)
  | _ => None
  end.

(** An integer and a float are compared exactly, on the value
    [(-1)^s * m * 2^e] of the float. *)
Definition float_eq_int (f : float) (z : Z) : bool :=
  match Prim2SF f with
  | S754_zero _ => (z =? 0)%Z
  | S754_finite s m e =>
      let n := if s then Z.neg m else Z.pos m in
      if (0 <=? e)%Z then (z =? n * 2 ^ e)%Z else (z * 2 ^ (- e) =? n)%Z
  | S754_infinity _ | S754_nan => false
  end.

Definition num_eq (a b : PyNum) : bool :=
  match a, b with
  | NInt x, NInt y => (x =? y)%Z
  | NFloat f, NFloat g => (f =? g)%float
  | NInt z, NFloat f | NFloat f, NInt z => float_eq_int f z
  end.

Fixpoint py_eq (a b : PyVal) : bool :=
  let fix eq_seq (l1 l2 : list PyVal) : bool :=
    match l1, l2 with
    | [], [] => true
    | x :: l1', y :: l2' => py_eq x y && eq_seq l1' l2'
    | _, _ => false
    end in
  let fix sub_dict (d1 d2 : PyDict) : bool :=
    match d1 with
    | [] => true
    | (k, x) :: d1' =>
        match dict_get k d2 with
        | Some y => py_eq x y && sub_dict d1' d2
        | None => false
        end
    end in
  match a, b with
  | PNone, PNone => true
  | PBool _, _ | PInt _, _ | PFloat _, _ =>
      match py_num a, py_num b with
      | Some x, Some y => num_eq x y
      | _, _ => false
      end
  | PStr s, PStr t => String.eqb s t
  | PList l1, PList l2 => eq_seq l1 l2
  | PTuple l1, PTuple l2 => eq_seq l1 l2
  | PDict d1, PDict d2 => Nat.eqb (length d1) (length d2) && sub_dict d1 d2
  | PObject s, PObject t => String.eqb s t
  | _, _ => false
  end.

(** ** External collaborators *)

(** What a call into the outside returns: a value, or a raised
    [Exception] with its [str(e)]. *)
Inductive Outcome (A : Type) :=
| Returned (a : A)
| Raised (msg : string).
Arguments Returned {A} a.
Arguments Raised {A} msg.

(** [swarms.Agent], as far as this program reads it. *)
Record Agent := {
  agent_name : string;
  system_prompt : string;
  max_loops : Z
}.

(** The two texts handed to [Agent.run]. Both are f-strings with fixed
    wording around the interpolated values; a prompt is represented by
    the values it interpolates. *)
Inductive Prompt :=
| ContextPrompt (issue_description : string) (agent_findings : PyDict)
| SolutionPrompt (debug_results : PyDict).

(** [subprocess.run(cmd, capture_output=True, text=True, timeout=30)]:
    a completed process, or an exception ([TimeoutExpired], a launch
    error such as [FileNotFoundError]). *)
Inductive ProcResult :=
| Completed (returncode : Z) (stdout stderr : string)
| RunRaised (msg : string).

(** One reading of [datetime.now()], with the two renderings taken of it. *)
Record DateTime := {
  unix_seconds : Z;      (* int(now.timestamp()) *)
  isoformat : string     (* now.isoformat() *)
}.

(** The outside of the program. Besides the three collaborators it holds
    the two limits of the interpreter that [json] runs into:
    [sys.get_int_max_str_digits()], which is 0 (no limit) or at least 640
    (4300 unless configured otherwise), and the number of nested
    containers that the recursion limit leaves to the encoder and the
    decoder; an interpreter that runs this program has room for the two
    levels of the program's own metadata record. *)
Class External (World : Type) := {
  agent_run : Agent -> Prompt -> World -> Outcome PyVal * World;
  subprocess_run : list string -> World -> ProcResult * World;
  datetime_now : World -> DateTime * World;
  int_max_str_digits : Z;
  json_max_depth : nat;
  int_max_str_digits_range :
    (int_max_str_digits =? 0)%Z || (640 <=? int_max_str_digits)%Z = true;
  json_max_depth_range : Nat.leb 2 json_max_depth = true
}.

(** ** JSON documents and the [json] module *)

(** A document: what the text written by [json.dumps] denotes. A float is
    written by its shortest [repr] and read back bit for bit; [NaN] and
    the infinities are written and read as such ([allow_nan]). *)
Inductive Json :=
| JNull
| JBool (b : bool)
| JNum (z : Z)
| JFloat (f : float)
| JString (s : string)
| JArray (l : list Json)
| JObject (m : list (string * Json)).

(** The elements when every one is there, [None] when one is missing:
    the first exception ends the whole conversion. *)
Fixpoint all_some {A : Type} (l : list (option A)) : option (list A) :=
  match l with
  | [] => Some []
  | Some x :: l' =>
      match all_some l' with
      | Some xs => Some (x :: xs)
      | None => None
      end
  | None :: _ => None
  end.

Section json.
Context {World : Type} `{External World}.

(** Conversion between [int] and decimal text raises [ValueError] when
    the number has more digits than the limit allows. *)
Definition int_str_ok (z : Z) : bool :=
  (int_max_str_digits =? 0)%Z || (Z.abs z <? 10 ^ int_max_str_digits)%Z.

(** Key coercion of [json.dumps]: [str] keys as they are, [int] keys in
    decimal. *)
Definition json_key (k : PyKey) : option string :=
  match k with
  | KStr s => Some s
  | KInt z => if int_str_ok z then Some (pretty z) else None
  end.

(** The encoder with [depth] levels of nesting left. [None] stands for
    the exception raised: [TypeError] on a value that is not JSON
    serializable, [ValueError] on an integer with too many digits,
    [RecursionError] on a container nested too deep. Lists and tuples
    both become arrays. *)
Fixpoint json_encode (v : PyVal) (depth : nat) : option Json :=
  match v with
  | PNone => Some JNull
  | PBool b => Some (JBool b)
  | PInt z => if int_str_ok z then Some (JNum z) else None
  | PFloat f => Some (JFloat f)
  | PStr s => Some (JString s)
  | PList l | PTuple l =>
      match depth with
      | 0 => None
      | S depth' =>
          JArray <$> all_some (map (fun x => json_encode x depth') l)
      end
  | PDict d =>
      match depth with
      | 0 => None
      | S depth' =>
          JObject
          <$> all_some
                (map (fun kv =>
                        match json_key (fst kv), json_encode (snd kv) depth' with
                        | Some name, Some j => Some (name, j)
                        | _, _ => None
                        end) d)
      end
  | PObject _ => None
  end.

(** The decoder with [depth] levels of nesting left: arrays become
    lists, objects become dictionaries with [str] keys (a repeated member
    name keeps its last value). [None] stands for the [ValueError] or
    [RecursionError] raised past the limits. *)
Fixpoint json_decode (j : Json) (depth : nat) : option PyVal :=
  match j with
  | JNull => Some PNone
  | JBool b => Some (PBool b)
  | JNum z => if int_str_ok z then Some (PInt z) else None
  | JFloat f => Some (PFloat f)
  | JString s => Some (PStr s)
  | JArray l =>
      match depth with
      | 0 => None
      | S depth' =>
          PList <$> all_some (map (fun x => json_decode x depth') l)
      end
  | JObject m =>
      match depth with
      | 0 => None
      | S depth' =>
          (fun items => PDict (dict_of_items items))
          <$> all_some
                (map (fun kv =>
                        match json_decode (snd kv) depth' with
                        | Some x => Some (KStr (fst kv), x)
                        | None => None
                        end) m)
      end
  end.

(** [json.dumps(v)] and [json.loads] of a document. *)
Definition json_dumps (v : PyVal) : option Json := json_encode v json_max_depth.

Definition json_loads (j : Json) : option PyVal := json_decode j json_max_depth.
End json.

(** The values that JSON represents without change: no tuple, no opaque
    object, only [str] keys (and, as in every Python dictionary, no key
    twice). *)
Fixpoint json_native (v : PyVal) : bool :=
  match v with
  | PNone | PBool _ | PInt _ | PFloat _ | PStr _ => true
  | PList l => forallb json_native l
  | PTuple _ => false
  | PDict d =>
      bool_decide (NoDup (map fst d))
      && forallb (fun kv => match fst kv with KStr _ => true | KInt _ => false end
                            && json_native (snd kv)) d
  | PObject _ => false
  end.

(** ** [swarms_config.py] *)

Definition frontend_agent : Agent := {|
  agent_name := "FrontendDebugger";
  system_prompt := "You are a frontend debugging specialist for terminal applications.
            Focus on:
            - React/TypeScript component issues
            - UI rendering problems
            - State management bugs
            - Mobile responsiveness issues
            - Terminal interface problems
            
            Coordinate with other agents through shared memory and findings.";
  max_loops := 3
|}.

Definition backend_agent : Agent := {|
  agent_name := "BackendDebugger";
  system_prompt := "You are a backend debugging specialist for terminal applications.
            Focus on:
            - Rust core execution issues
            - Command processing problems
            - Security vulnerabilities
            - Performance bottlenecks
            - Inter-process communication
            
            Share findings with frontend and system agents.";
  max_loops := 3
|}.

Definition system_agent : Agent := {|
  agent_name := "SystemIntegrator";
  system_prompt := "You are a system integration debugging specialist.
            Focus on:
            - Build system issues
            - Dependency conflicts
            - Environment configuration
            - Docker/deployment problems
            - CI/CD pipeline failures
            
            Coordinate overall system health with all agents.";
  max_loops := 3
|}.

Definition test_agent : Agent := {|
  agent_name := "TestCoordinator";
  system_prompt := "You are a test debugging and coordination specialist.
            Focus on:
            - Test failures analysis
            - TDD workflow issues
            - Test coverage problems
            - Integration test coordination
            - Quality assurance
            
            Ensure all fixes are properly tested.";
  max_loops := 3
|}.

Definition perf_agent : Agent := {|
  agent_name := "PerformanceAnalyzer";
  system_prompt := "You are a performance debugging specialist.
            Focus on:
            - Memory usage optimization
            - CPU performance issues
            - Bundle size analysis
            - Runtime performance
            - Resource utilization
            
            Provide performance insights to all agents.";
  max_loops := 3
|}.

(** [self.debug_memory], a dictionary with the two keys the class uses. *)
Record DebugMemory := {
  current_issue : option string;
  agent_findings : option PyDict
}.

Record TerminalDebugSwarm := {
  max_agents : Z;
  agents : list Agent;
  debug_memory : DebugMemory
}.

(** [TerminalDebugSwarm.__init__] *)
Definition new_swarm (max_agents : Z) : TerminalDebugSwarm :=
  {| max_agents := max_agents;
     agents := [];
     debug_memory := {| current_issue := None; agent_findings := None |} |}.

(** [create_debug_agents]: the five agents, whatever [max_agents] is. *)
Definition create_debug_agents (sw : TerminalDebugSwarm)
  : list Agent * TerminalDebugSwarm :=
  let l := [frontend_agent; backend_agent; system_agent; test_agent; perf_agent] in
  (l, {| max_agents := max_agents sw; agents := l; debug_memory := debug_memory sw |}).

(** [create_terminal_debug_swarm] *)
Definition create_terminal_debug_swarm : TerminalDebugSwarm :=
  snd (create_debug_agents (new_swarm 5)).

(** One call of [agent.run] during dispatch, kept for the theorems only:
    the program itself keeps no such record. *)
Record Call := {
  call_agent : Agent;
  call_prompt : Prompt;
  call_outcome : Outcome PyVal
}.

Section swarm.
Context {World : Type} `{External World}.

(** The [for agent in self.agents] loop of [coordinate_debugging]. The
    [KeyError] branch is the [except] clause catching a missing
    ['agent_findings'] entry after [results] was already assigned. *)
Fixpoint dispatch (issue_description : string) (todo : list Agent)
    (results : PyDict) (dm : DebugMemory) (w : World)
  : PyDict * DebugMemory * World * list Call :=
  match todo with
  | [] => (results, dm, w, [])
  | agent :: rest =>
      let context_prompt :=
        ContextPrompt issue_description (default [] (agent_findings dm)) in
      let '(out, w1) := agent_run agent context_prompt w in
      let call := {| call_agent := agent; call_prompt := context_prompt;
                     call_outcome := out |} in
      let '(results', dm') :=
        match out with
        | Returned response =>
            let results1 := dict_set (KStr (agent_name agent)) response results in
            match agent_findings dm with
            | Some findings =>
                (results1,
                 {| current_issue := current_issue dm;
                    agent_findings :=
                      Some (dict_set (KStr (agent_name agent)) response findings) |})
            | None =>
                (dict_set (KStr (agent_name agent))
                   (PStr ("Error: " +:+ "'agent_findings'")) results1, dm)
            end
        | Raised msg =>
            (dict_set (KStr (agent_name agent)) (PStr ("Error: " +:+ msg)) results, dm)
        end in
      let '(results_n, dm_n, w_n, calls) :=
        dispatch issue_description rest results' dm' w1 in
      (results_n, dm_n, w_n, call :: calls)
  end.

(** [coordinate_debugging] together with the calls it made. *)
Definition coordinate_debugging_calls (issue_description : string)
    (sw : TerminalDebugSwarm) (w : World)
  : PyDict * TerminalDebugSwarm * World * list Call :=
  let dm1 := {| current_issue := Some issue_description;
                agent_findings := agent_findings (debug_memory sw) |} in
  let dm2 := {| current_issue := current_issue dm1;
                agent_findings := Some [] |} in
  let '(results, dm, w', calls) :=
    dispatch issue_description (agents sw) [] dm2 w in
  (results,
   {| max_agents := max_agents sw; agents := agents sw; debug_memory := dm |},
   w', calls).

(** [coordinate_debugging] *)
Definition coordinate_debugging (issue_description : string)
    (sw : TerminalDebugSwarm) (w : World)
  : PyDict * TerminalDebugSwarm * World :=
  let '(results, sw', w', _) := coordinate_debugging_calls issue_description sw w in
  (results, sw', w').

(** [generate_coordinated_solution]; the call to [run] is not guarded. *)
Definition generate_coordinated_solution (debug_results : PyDict)
    (sw : TerminalDebugSwarm) (w : World) : Outcome PyVal * World :=
  match agents sw with
  | coordinator :: _ => agent_run coordinator (SolutionPrompt debug_results) w
  | [] => (Returned (PStr "No agents available for solution generation"), w)
  end.
End swarm.

(** ** [swarms_coordinator.py] *)

(** Values of the [params] of a hook: the program passes strings and
    [True]. [py_str] is [str(value)]. *)
Inductive HookArg :=
| ArgStr (s : string)
| ArgBool (b : bool).

Definition py_str (a : HookArg) : string :=
  match a with
  | ArgStr s => s
  | ArgBool true => "True"
  | ArgBool false => "False"
  end.

(** An entry of [self.coordination_log]: the ["output"] of a successful
    hook or the ["error"] of a failed one. *)
Inductive Captured :=
| Output (stdout : string)
| Error (stderr : string).

Record LogEntry := {
  log_timestamp : string;
  log_hook : string;
  log_params : list (string * HookArg);
  log_success : bool;
  log_captured : Captured
}.

(** The [value] column: the JSON document a writer stored, or text that
    is no JSON document. *)
Inductive Text :=
| Document (j : Json)
| Garbled (raw : string).

(** A row of [memory_store(key PRIMARY KEY, value, timestamp, ttl)]. *)
Record Row := {
  row_value : Text;
  row_timestamp : string;
  row_ttl : option Z
}.

Record Coordinator := {
  memory_db_path : string;
  swarm : option TerminalDebugSwarm;
  coordination_log : list LogEntry
}.

(** The coordinator object, the database file at its [memory_db_path]
    ([None]: no such file) and the outside world. *)
Record State (World : Type) := {
  self : Coordinator;
  memory_db : option (gmap string Row);
  world : World
}.
Arguments self {World} _.
Arguments memory_db {World} _.
Arguments world {World} _.

(** The dictionary returned by [get_coordination_status]. *)
Record Status := {
  swarm_initialized : bool;
  agent_count : nat;
  coordination_log_entries : nat;
  memory_db_exists : bool;
  agent_names : option (list string);
  debugging_sessions : nat
}.

(** A byte [10xxxxxx] continues the UTF-8 encoding of a character. *)
Definition utf8_continuation (c : Ascii.ascii) : bool :=
  Nat.leb 128 (nat_of_ascii c) && Nat.ltb (nat_of_ascii c) 192.

(** [s[:n]]: the first [n] characters, each with all its bytes. *)
Fixpoint str_take (n : nat) (s : string) : string :=
  match s with
  | "" => ""
  | String c s' =>
      if utf8_continuation c then String c (str_take n s')
      else match n with
           | 0 => ""
           | S n' => String c (str_take n' s')
           end
  end.

(** The command line built by [_claude_flow_hook]. *)
Definition cmd_parts (hook_name : string) (params : list (string * HookArg))
  : list string :=
  (["npx"; "claude-flow@alpha"; "hooks"; hook_name]
   ++ flat_map (fun kv => ["--" +:+ fst kv; py_str (snd kv)]) params)%list.

(** [SwarmsClaudeFlowCoordinator.__init__] *)
Definition new_coordinator (memory_db_path : string) : Coordinator :=
  {| memory_db_path := memory_db_path; swarm := None; coordination_log := [] |}.

Section coordinator.
Context {World : Type} `{External World}.

Definition set_world (w : World) (st : State World) : State World :=
  {| self := self st; memory_db := memory_db st; world := w |}.

Definition set_memory_db (db : option (gmap string Row)) (st : State World)
  : State World :=
  {| self := self st; memory_db := db; world := world st |}.

Definition set_swarm (sw : option TerminalDebugSwarm) (st : State World)
  : State World :=
  {| self := {| memory_db_path := memory_db_path (self st);
                swarm := sw;
                coordination_log := coordination_log (self st) |};
     memory_db := memory_db st; world := world st |}.

Definition log_append (e : LogEntry) (st : State World) : State World :=
  {| self := {| memory_db_path := memory_db_path (self st);
                swarm := swarm (self st);
                coordination_log := (coordination_log (self st) ++ [e])%list |};
     memory_db := memory_db st; world := world st |}.

(** [_claude_flow_hook] *)
Definition _claude_flow_hook (hook_name : string)
    (params : list (string * HookArg)) (st : State World)
  : bool * State World :=
  let '(result, w1) := subprocess_run (cmd_parts hook_name params) (world st) in
  match result with
  | Completed returncode stdout stderr =>
      let '(now, w2) := datetime_now w1 in
      if (returncode =? 0)%Z then
        (true,
         log_append {| log_timestamp := isoformat now; log_hook := hook_name;
                       log_params := params; log_success := true;
                       log_captured := Output stdout |} (set_world w2 st))
      else
        (false,
         log_append {| log_timestamp := isoformat now; log_hook := hook_name;
                       log_params := params; log_success := false;
                       log_captured := Error stderr |} (set_world w2 st))
  | RunRaised _ => (false, set_world w1 st)
  end.

(** [_store_coordination_memory]. Opening the connection creates the
    file and [CREATE TABLE IF NOT EXISTS] the table before [json.dumps]
    is evaluated, so a failed serialization leaves an empty table
    behind where there was no file. *)
Definition _store_coordination_memory (key : string) (data : PyVal)
    (st : State World) : bool * State World :=
  let table := default ∅ (memory_db st) in
  match json_dumps data with
  | Some j =>
      let '(now, w1) := datetime_now (world st) in
      let row := {| row_value := Document j; row_timestamp := isoformat now;
                    row_ttl := None |} in
      (true, set_memory_db (Some (<[key := row]> table)) (set_world w1 st))
  | None => (false, set_memory_db (Some table) st)
  end.

(** [_load_coordination_memory]; Python's [None] is [PNone]. An
    exception of [json.loads] is caught and gives [None] too. *)
Definition _load_coordination_memory (key : string) (st : State World) : PyVal :=
  match memory_db st with
  | None => PNone
  | Some table =>
      match table !! key with
      | Some row =>
          match row_value row with
          | Document j => default PNone (json_loads j)
          | Garbled _ => PNone
          end
      | None => PNone
      end
  end.

(** [initialize_swarm]. The constructors of the swarm and of its agents
    are record constructions, so the [except] branch is never entered. *)
Definition initialize_swarm (st : State World) : bool * State World :=
  let sw := create_terminal_debug_swarm in
  let st1 := set_swarm (Some sw) st in
  let '(_, st2) :=
    _claude_flow_hook "notify"
      [("message", ArgStr ("Python swarms initialized with "
                           +:+ pretty (length (agents sw)) +:+ " agents"));
       ("level", ArgStr "success")] st1 in
  let '(now, w) := datetime_now (world st2) in
  let swarm_metadata :=
    PDict [(KStr "initialized_at", PStr (isoformat now));
           (KStr "agent_count", PInt (Z.of_nat (length (agents sw))));
           (KStr "agent_names", PList (map (fun a => PStr (agent_name a)) (agents sw)));
           (KStr "coordination_type", PStr "parallel_debugging")] in
  let '(_, st3) :=
    _store_coordination_memory "swarms/metadata" swarm_metadata (set_world w st2) in
  (true, st3).

(** The dictionary [session_data] as built before it is stored. *)
Definition session_record (session_id issue_description timestamp : string)
    (debug_results : PyDict) (context : option PyDict) : PyDict :=
  [(KStr "session_id", PStr session_id);
   (KStr "issue", PStr issue_description);
   (KStr "timestamp", PStr timestamp);
   (KStr "agent_results", PDict debug_results);
   (KStr "context", PDict (default [] context))].

(** [coordinate_debugging_session]. [context] is [None] by default;
    [context or {}] is [default [] context], an empty dictionary being
    the same value as [{}]. The result is [Raised] when the unguarded
    synthesis call raises. *)
Definition coordinate_debugging_session (issue_description : string)
    (context : option PyDict) (st : State World)
  : Outcome PyVal * State World :=
  match swarm (self st) with
  | None => (Returned (PDict [(KStr "error", PStr "Swarm not initialized")]), st)
  | Some sw =>
      let '(now0, w0) := datetime_now (world st) in
      let session_id := "debug-session-" +:+ pretty (unix_seconds now0) in
      let '(_, st1) :=
        _claude_flow_hook "pre-task"
          [("description", ArgStr ("Swarms debugging session: "
                                   +:+ str_take 100 issue_description +:+ "..."));
           ("task-id", ArgStr session_id)] (set_world w0 st) in
      let previous_context :=
        _load_coordination_memory "swarms/debugging/context" st1 in
      let context :=
        if py_truthy previous_context
        then Some (dict_set (KStr "previous_findings") previous_context
                     (default [] context))
        else context in
      let '(debug_results, sw', w2) :=
        coordinate_debugging issue_description sw (world st1) in
      let st2 := set_swarm (Some sw') (set_world w2 st1) in
      let '(now1, w3) := datetime_now (world st2) in
      let session_data :=
        session_record session_id issue_description (isoformat now1)
          debug_results context in
      let '(_, st3) :=
        _store_coordination_memory ("swarms/debugging/sessions/" +:+ session_id)
          (PDict session_data) (set_world w3 st2) in
      match generate_coordinated_solution debug_results sw' (world st3) with
      | (Raised msg, w4) => (Raised msg, set_world w4 st3)
      | (Returned solution, w4) =>
          let session_data :=
            dict_set (KStr "coordinated_solution") solution session_data in
          let '(_, st5) :=
            _claude_flow_hook "post-task"
              [("task-id", ArgStr session_id);
               ("track-metrics", ArgBool true);
               ("store-results", ArgBool true)] (set_world w4 st3) in
          let '(_, st6) :=
            _claude_flow_hook "notify"
              [("message", ArgStr ("Debugging session completed: "
                                   +:+ pretty (length debug_results)
                                   +:+ " agents participated"));
               ("level", ArgStr "success")] st5 in
          (Returned (PDict session_data), st6)
      end
  end.

(** [get_coordination_status] *)
Definition get_coordination_status (st : State World) : Status :=
  let loaded := _load_coordination_memory "swarms/debugging/sessions" st in
  let sessions := if py_truthy loaded then loaded else PDict [] in
  {| swarm_initialized :=
       match swarm (self st) with Some _ => true | None => false end;
     agent_count :=
       match swarm (self st) with Some sw => length (agents sw) | None => 0 end;
     coordination_log_entries := length (coordination_log (self st));
     memory_db_exists :=
       match memory_db st with Some _ => true | None => false end;
     agent_names :=
       match swarm (self st) with
       | Some sw => Some (map agent_name (agents sw))
       | None => None
       end;
     debugging_sessions :=
       match sessions with PDict d => length d | _ => 0 end |}.

(** [communicate_with_claude_agents] *)
Definition communicate_with_claude_agents (message target_agent : string)
    (st : State World) : PyVal * State World :=
  let '(now0, w0) := datetime_now (world st) in
  let communication_data :=
    PDict [(KStr "timestamp", PStr (isoformat now0));
           (KStr "from", PStr "python_swarms");
           (KStr "to", PStr target_agent);
           (KStr "message", PStr message);
           (KStr "session_active",
            PBool match swarm (self st) with Some _ => true | None => false end)] in
  let '(now1, w1) := datetime_now w0 in
  let comm_key := "swarms/communication/" +:+ pretty (unix_seconds now1) in
  let '(_, st1) :=
    _store_coordination_memory comm_key communication_data (set_world w1 st) in
  let '(_, st2) :=
    _claude_flow_hook "notify"
      [("message", ArgStr ("Swarms communication to " +:+ target_agent +:+ ": "
                           +:+ str_take 50 message +:+ "..."));
       ("level", ArgStr "info")] st1 in
  (communication_data, st2).
End coordinator.

(** ** Entry points *)

(** The sample issue of [test_swarm_integration]. *)
Definition integration_test_issue : string := "
    The terminal application is showing mobile responsiveness issues:
    - Tab bar not displaying correctly on small screens
    - Touch gestures not working properly
    - Terminal output getting cut off
    - Performance degradation on mobile devices
    ".

(** The sample issue of [main]. *)
Definition main_test_issue : string := "
        Mobile terminal interface showing rendering issues:
        - Tab navigation broken on touch devices
        - Terminal output viewport not responsive
        - Gesture controls not registering
        - Performance degradation on mobile browsers
        ".

Section entry_points.
Context {World : Type} `{External World}.

(** [test_swarm_integration]: the value it returns (its printing apart). *)
Definition test_swarm_integration (w : World) : PyDict * World :=
  let swarm := create_terminal_debug_swarm in
  let '(results, _, w') := coordinate_debugging integration_test_issue swarm w in
  (results, w').

(** [main], run with a database file [db] at [.swarm/memory.db]. It
    returns [None]; the [KeyError] and [TypeError] branches are the
    subscript [session_result['session_id']]. *)
Definition main (db : option (gmap string Row)) (w : World)
  : Outcome unit * State World :=
  let coordinator :=
    {| self := new_coordinator ".swarm/memory.db"; memory_db := db; world := w |} in
  let '(ok, st1) := initialize_swarm coordinator in
  if ok then
    let status := get_coordination_status st1 in
    let '(_, st2) :=
      communicate_with_claude_agents
        "Python swarms ready for coordinated debugging" "all" st1 in
    match coordinate_debugging_session main_test_issue None st2 with
    | (Raised msg, st3) => (Raised msg, st3)
    | (Returned (PDict session_result), st3) =>
        match dict_get (KStr "session_id") session_result with
        | Some _ => (Returned tt, st3)
        | None => (Raised "'session_id'", st3)
        end
    | (Returned _, st3) => (Raised "object is not subscriptable", st3)
    end
  else (Returned tt, st1).
End entry_points.

(** ** A scripted outside world

    Concrete collaborators for the closed examples: the world is a clock
    that advances one second per reading; workers and the hook process
    answer by a fixed script. *)
Module Scenario.
Definition scripted (run : Agent -> Prompt -> Outcome PyVal)
    (proc : list string -> ProcResult) : External Z :=
  {| agent_run := fun a p w => (run a p, w);
     subprocess_run := fun cmd w => (proc cmd, w);
     datetime_now := fun w =>
       ({| unix_seconds := 1700000000 + w; isoformat := "T+" +:+ pretty w |},
        (w + 1)%Z);
     int_max_str_digits := 4300;
     json_max_depth := 990;
     int_max_str_digits_range := eq_refl;
     json_max_depth_range := eq_refl |}.

(** Every worker answers; the synthesis request is answered too. *)
Definition run_ok (a : Agent) (p : Prompt) : Outcome PyVal :=
  match p with
  | ContextPrompt _ _ => Returned (PStr ("analysis by " +:+ agent_name a))
  | SolutionPrompt _ => Returned (PStr "combined fix")
  end.

(** The worker named [who] raises during dispatch, the others answer. *)
Definition run_one_raises (who : string) (a : Agent) (p : Prompt)
  : Outcome PyVal :=
  match p with
  | ContextPrompt _ _ =>
      if String.eqb (agent_name a) who then Raised "model unavailable"
      else Returned (PStr ("analysis by " +:+ agent_name a))
  | SolutionPrompt _ => Returned (PStr "combined fix")
  end.

(** Every worker raises during dispatch, the synthesis request is
    answered. *)
Definition run_dispatch_raises (a : Agent) (p : Prompt) : Outcome PyVal :=
  match p with
  | ContextPrompt _ _ => Raised "model unavailable"
  | SolutionPrompt _ => Returned (PStr "combined fix")
  end.

(** Workers answer during dispatch, the synthesis request raises. *)
Definition run_synthesis_raises (a : Agent) (p : Prompt) : Outcome PyVal :=
  match p with
  | ContextPrompt _ _ => Returned (PStr ("analysis by " +:+ agent_name a))
  | SolutionPrompt _ => Raised "model unavailable"
  end.

Definition proc_ok (cmd : list string) : ProcResult := Completed 0 "done" "".
Definition proc_exit_1 (cmd : list string) : ProcResult :=
  Completed 1 "" "hook failed".
Definition proc_timeout (cmd : list string) : ProcResult :=
  RunRaised "Command timed out after 30 seconds".

(** A fresh coordinator, no database file, the clock at zero. *)
Definition fresh : State Z :=
  {| self := new_coordinator ".swarm/memory.db"; memory_db := None; world := 0%Z |}.

Definition worker (name : string) : Agent :=
  {| agent_name := name; system_prompt := ""; max_loops := 3 |}.

(** A swarm of three workers [A], [B], [C]. *)
Definition abc : TerminalDebugSwarm :=
  {| max_agents := 5; agents := [worker "A"; worker "B"; worker "C"];
     debug_memory := {| current_issue := None; agent_findings := None |} |}.

(** The outside in which everything works, the one in which every hook
    exits with code 1, and the one in which every hook times out. *)
Definition all_well : External Z := scripted run_ok proc_ok.
Definition hooks_exit_1 : External Z := scripted run_ok proc_exit_1.
Definition hooks_time_out : External Z := scripted run_ok proc_timeout.

(** Every hook exits with code 1 and the synthesis request raises. *)
Definition hooks_exit_1_synthesis_raises : External Z :=
  scripted run_synthesis_raises proc_exit_1.

(** The coordinator after [initialize_swarm]. *)
Definition initialized (E : External Z) : State Z :=
  snd (@initialize_swarm Z E fresh).

(** Two sessions in a row after initialization. *)
Definition first_session (E : External Z) : Outcome PyVal * State Z :=
  @coordinate_debugging_session Z E "mobile tab bar broken" None (initialized E).
Definition second_session (E : External Z) : Outcome PyVal * State Z :=
  @coordinate_debugging_session Z E "terminal output cut off" None
    (snd (first_session E)).

(** The record a session returned ([{}] when it raised). *)
Definition returned_record (r : Outcome PyVal * State Z) : PyDict :=
  match fst r with
  | Returned (PDict sd) => sd
  | _ => []
  end.

(** An initialized coordinator whose store holds [previous] under
    [swarms/debugging/context]. *)
Definition with_previous_context (previous : PyVal) : State Z :=
  snd (@_store_coordination_memory Z all_well "swarms/debugging/context" previous
         (initialized all_well)).
(** A worker script that answers with the number of findings it was
    shown. *)
Definition run_counts_findings (a : Agent) (p : Prompt) : Outcome PyVal :=
  match p with
  | ContextPrompt _ findings => Returned (PInt (Z.of_nat (length findings)))
  | SolutionPrompt _ => Returned (PStr "combined fix")
  end.

(** A swarm in which two workers share the name [A]. *)
Definition twins : TerminalDebugSwarm :=
  {| max_agents := 5; agents := [worker "A"; worker "A"; worker "B"];
     debug_memory := {| current_issue := None; agent_findings := None |} |}.

(** A swarm built by hand and never given agents. *)
Definition no_agents : TerminalDebugSwarm := new_swarm 5.

(** The outside in which everything works and the clock stands still. *)
Definition frozen_clock : External Z :=
  {| agent_run := fun a p w => (run_ok a p, w);
     subprocess_run := fun cmd w => (proc_ok cmd, w);
     datetime_now := fun w =>
       ({| unix_seconds := 1700000000; isoformat := "T+0" |}, w);
     int_max_str_digits := 4300;
     json_max_depth := 990;
     int_max_str_digits_range := eq_refl;
     json_max_depth_range := eq_refl |}.

(** The outside in which the very first analysis call raises and every
    later one answers: the world counts the calls made. *)
Definition first_call_raises : External Z :=
  {| agent_run := fun a p w =>
       (if (w =? 0)%Z then Raised "model unavailable" else run_ok a p, (w + 1)%Z);
     subprocess_run := fun cmd w => (proc_ok cmd, w);
     datetime_now := fun w =>
       ({| unix_seconds := 1700000000; isoformat := "T+0" |}, w);
     int_max_str_digits := 4300;
     json_max_depth := 990;
     int_max_str_digits_range := eq_refl;
     json_max_depth_range := eq_refl |}.

(** An interpreter with room for four levels of nesting only. *)
Definition shallow : External Z :=
  {| agent_run := fun a p w => (run_ok a p, w);
     subprocess_run := fun cmd w => (proc_ok cmd, w);
     datetime_now := fun w =>
       ({| unix_seconds := 1700000000 + w; isoformat := "T+" +:+ pretty w |},
        (w + 1)%Z);
     int_max_str_digits := 4300;
     json_max_depth := 4;
     int_max_str_digits_range := eq_refl;
     json_max_depth_range := eq_refl |}.

(** [depth] lists around the empty list: [[[...[]...]]]. *)
Fixpoint nested (depth : nat) : PyVal :=
  match depth with
  | 0 => PList []
  | S n => PList [nested n]
  end.

(** A coordinator whose [swarm] attribute was assigned by hand. *)
Definition hand_built (sw : TerminalDebugSwarm) : State Z :=
  {| self := {| memory_db_path := ".swarm/memory.db"; swarm := Some sw;
                coordination_log := [] |};
     memory_db := None; world := 0%Z |}.
End Scenario.

(** ** Vocabulary of the statements *)

(** What dispatch records in [results] for a call: the response, or the
    synthetic error string. *)
Definition recorded (o : Outcome PyVal) : PyVal :=
  match o with
  | Returned response => response
  | Raised msg => PStr ("Error: " +:+ msg)
  end.

Definition call_name (c : Call) : string := agent_name (call_agent c).

(** The entries that a sequence of calls leaves in [results], and the
    ones it commits to the shared findings (successful calls only),
    starting from given mappings. *)
Definition record_onto (results : PyDict) (calls : list Call) : PyDict :=
  fold_left (fun r c => dict_set (KStr (call_name c)) (recorded (call_outcome c)) r)
    calls results.

Definition commit_onto (findings : PyDict) (calls : list Call) : PyDict :=
  fold_left (fun f c =>
               match call_outcome c with
               | Returned response => dict_set (KStr (call_name c)) response f
               | Raised _ => f
               end) calls findings.

(** Worker [name] committed [response] in one of the [calls]. *)
Definition committed_by (calls : list Call) (name : string) (response : PyVal)
  : Prop :=
  exists j c, calls !! j = Some c /\ call_name c = name
              /\ call_outcome c = Returned response.

(** The calls as they were made: each is [agent.run] called on the
    recorded agent with the recorded prompt, in the world the call before
    it left, and returning the recorded outcome; [w'] is the world after
    the last one. *)
Fixpoint calls_made {World : Type} `{External World} (w : World)
    (calls : list Call) (w' : World) : Prop :=
  match calls with
  | [] => w' = w
  | c :: rest =>
      exists w1,
        agent_run (call_agent c) (call_prompt c) w = (call_outcome c, w1)
        /\ calls_made w1 rest w'
  end.

(** A swarm whose [debug_memory] was left in some state by earlier use. *)
Definition with_debug_memory (dm : DebugMemory) (sw : TerminalDebugSwarm)
  : TerminalDebugSwarm :=
  {| max_agents := max_agents sw; agents := agents sw; debug_memory := dm |}.

(** Induction principle for JSON documents that reaches under arrays and
    objects. *)
Section Json_induction.
Variable P : Json -> Prop.
Hypothesis HNull : P JNull.
Hypothesis HBool : forall b, P (JBool b).
Hypothesis HNum : forall z, P (JNum z).
Hypothesis HFloat : forall f, P (JFloat f).
Hypothesis HString : forall s, P (JString s).
Hypothesis HArray : forall l, Forall P l -> P (JArray l).
Hypothesis HObject : forall m, Forall (fun kv => P (snd kv)) m -> P (JObject m).

Fixpoint Json_deep_ind (j : Json) : P j :=
  match j with
  | JNull => HNull
  | JBool b => HBool b
  | JNum z => HNum z
  | JFloat f => HFloat f
  | JString s => HString s
  | JArray l =>
      HArray l ((fix go (l : list Json) : Forall P l :=
                   match l with
                   | [] => @List.Forall_nil _ P
                   | x :: l' => @List.Forall_cons _ P x l' (Json_deep_ind x) (go l')
                   end) l)
  | JObject m =>
      HObject m ((fix go (m : list (string * Json)) : Forall (fun kv => P (snd kv)) m :=
                    match m with
                    | [] => @List.Forall_nil _ _
                    | kv :: m' =>
                        @List.Forall_cons _ (fun kv => P (snd kv)) kv m'
                          (Json_deep_ind (snd kv)) (go m')
                    end) m)
  end.
End Json_induction.

(** The values of the types [json.dumps] accepts: no opaque object at
    any depth. *)
Fixpoint serializable (v : PyVal) : bool :=
  match v with
  | PNone | PBool _ | PInt _ | PFloat _ | PStr _ => true
  | PList l | PTuple l => forallb serializable l
  | PDict d => forallb (fun kv => serializable (snd kv)) d
  | PObject _ => false
  end.

(** No NaN at any depth: the one number that is not equal to itself. *)
Fixpoint nan_free (v : PyVal) : bool :=
  match v with
  | PFloat f => negb (is_nan f)
  | PNone | PBool _ | PInt _ | PStr _ | PObject _ => true
  | PList l | PTuple l => forallb nan_free l
  | PDict d => forallb (fun kv => nan_free (snd kv)) d
  end.

(** The key under which a session started in state [st] is stored. *)
Definition session_key {World : Type} `{External World} (st : State World)
  : string :=
  "swarms/debugging/sessions/"
  +:+ ("debug-session-" +:+ pretty (unix_seconds (fst (datetime_now (world st))))).

(** ** Dictionaries *)

Section dict_facts.
Context {K V : Type} `{EqDecision K}.
Implicit Types (k : K) (v : V) (d : list (K * V)).

Lemma dict_get_set_eq k v d : dict_get k (dict_set k v d) = Some v.
Proof.
  induction d as [|[k' v'] d IH]; simpl.
  - by rewrite decide_True.
  - destruct (decide (k = k')) as [->|Hne]; simpl.
    + by rewrite decide_True.
    + by rewrite decide_False.
Qed.

Lemma dict_get_set_ne k k' v d :
  k ≠ k' -> dict_get k' (dict_set k v d) = dict_get k' d.
Proof.
  intros Hne. induction d as [|[k0 v0] d IH]; simpl.
  - rewrite decide_False; [done | congruence].
  - destruct (decide (k = k0)) as [->|Hk]; simpl.
    + rewrite !decide_False; [done | congruence | congruence].
    + destruct (decide (k' = k0)); [done | apply IH].
Qed.

Lemma dict_get_None k d : dict_get k d = None <-> k ∉ map fst d.
Proof.
  induction d as [|[k' v'] d IH]; simpl.
  - split; [intros _; apply not_elem_of_nil | done].
  - rewrite not_elem_of_cons. destruct (decide (k = k')) as [->|Hne].
    + split; [done | intros [? _]; done].
    + rewrite IH. tauto.
Qed.

Lemma dict_get_Some_elem k v d : dict_get k d = Some v -> (k, v) ∈ d.
Proof.
  induction d as [|[k' v'] d IH]; simpl; [done|].
  destruct (decide (k = k')) as [->|Hne].
  - intros [= ->]. apply list_elem_of_here.
  - intros Hg. apply list_elem_of_further, IH, Hg.
Qed.

Lemma dict_get_NoDup k v d :
  NoDup (map fst d) -> (k, v) ∈ d -> dict_get k d = Some v.
Proof.
  induction d as [|[k' v'] d IH]; simpl; intros Hnd Hin.
  - by apply elem_of_nil in Hin.
  - apply NoDup_cons in Hnd as [Hk' Hnd].
    apply elem_of_cons in Hin as [[= -> ->]|Hin].
    + by rewrite decide_True.
    + rewrite decide_False; [by apply IH|].
      intros ->. apply Hk'. apply (list_elem_of_fmap_2 fst) in Hin. exact Hin.
Qed.

(** Storing under a new key appends; the order of the others is kept. *)
Lemma dict_set_fresh k v d :
  k ∉ map fst d -> dict_set k v d = (d ++ [(k, v)])%list.
Proof.
  induction d as [|[k' v'] d IH]; simpl; [done|].
  rewrite not_elem_of_cons. intros [Hne Hnot].
  rewrite decide_False; [|done]. by rewrite IH.
Qed.

Lemma dict_set_keys_present k v d :
  k ∈ map fst d -> map fst (dict_set k v d) = map fst d.
Proof.
  induction d as [|[k' v'] d IH]; simpl; intros Hin.
  - by apply elem_of_nil in Hin.
  - destruct (decide (k = k')) as [->|Hne]; simpl; [done|].
    apply elem_of_cons in Hin as [?|Hin]; [done|]. by rewrite IH.
Qed.

Lemma dict_set_length_present k v d :
  k ∈ map fst d -> length (dict_set k v d) = length d.
Proof.
  intros Hin. rewrite <- !(length_map fst). by rewrite dict_set_keys_present.
Qed.

Lemma dict_of_items_acc (items acc : list (K * V)) :
  NoDup (map fst (acc ++ items)%list) ->
  fold_left (fun d kv => dict_set (fst kv) (snd kv) d) items acc
  = (acc ++ items)%list.
Proof.
  revert acc. induction items as [|[k v] items IH]; intros acc Hnd; simpl.
  - by rewrite app_nil_r.
  - rewrite dict_set_fresh.
    + rewrite IH; rewrite <- app_assoc; [done | exact Hnd].
    + rewrite map_app in Hnd. apply NoDup_app in Hnd as (_ & Hdis & _).
      intros Hin. apply (Hdis k Hin). simpl. apply list_elem_of_here.
Qed.

Lemma dict_of_items_NoDup (items : list (K * V)) :
  NoDup (map fst items) -> dict_of_items items = items.
Proof. intros Hnd. unfold dict_of_items. by rewrite dict_of_items_acc. Qed.
Lemma dict_set_keys_NoDup k v d :
  NoDup (map fst d) -> NoDup (map fst (dict_set k v d)).
Proof.
  intros Hnd. destruct (decide (k ∈ map fst d)) as [Hin|Hnot].
  - by rewrite dict_set_keys_present.
  - rewrite dict_set_fresh by done. rewrite map_app. simpl.
    apply NoDup_app. split; [done|]. split; [|apply NoDup_singleton].
    intros x Hx Hx'. apply list_elem_of_singleton in Hx'. by subst.
Qed.

Lemma dict_set_Forall (P : K * V -> Prop) k v d :
  P (k, v) -> Forall P d -> Forall P (dict_set k v d).
Proof.
  intros Hv Hall. induction Hall as [|[k' v'] d Hkv Hd IH]; simpl.
  - by constructor.
  - destruct (decide (k = k')) as [->|]; constructor; done.
Qed.

(** A dictionary built from pairs has no key twice, and holds only
    values that were among the pairs. *)
Lemma dict_of_items_keys_NoDup (items : list (K * V)) :
  NoDup (map fst (dict_of_items items)).
Proof.
  unfold dict_of_items.
  assert (forall acc : list (K * V), NoDup (map fst acc) ->
    NoDup (map fst (fold_left (fun d kv => dict_set (fst kv) (snd kv) d) items acc)))
    as Hfold.
  { induction items as [|[k v] items IH]; intros acc Hnd; [done|].
    simpl. by apply IH, dict_set_keys_NoDup. }
  apply Hfold. constructor.
Qed.

Lemma dict_of_items_Forall (P : K * V -> Prop) (items : list (K * V)) :
  Forall P items -> Forall P (dict_of_items items).
Proof.
  unfold dict_of_items.
  assert (forall acc : list (K * V), Forall P acc -> Forall P items ->
    Forall P (fold_left (fun d kv => dict_set (fst kv) (snd kv) d) items acc))
    as Hfold.
  { induction items as [|[k v] items IH]; intros acc Hacc Hall; [done|].
    apply Forall_cons in Hall as [Hkv Hall].
    simpl. apply IH; [|done]. by apply dict_set_Forall. }
  apply Hfold. constructor.
Qed.
End dict_facts.

(** ** The JSON encoding *)

Lemma all_some_Some {A B : Type} (f : A -> option B) (l : list A) (ys : list B) :
  all_some (map f l) = Some ys <-> Forall2 (fun x y => f x = Some y) l ys.
Proof.
  revert ys. induction l as [|x l IH]; intros ys; simpl.
  - split; [intros [= <-]; constructor | by intros ->%Forall2_nil_inv_l].
  - destruct (f x) as [y|] eqn:Hy.
    + destruct (all_some (map f l)) as [ys'|] eqn:Hys.
      * split.
        -- intros [= <-]. constructor; [done | by apply IH].
        -- intros (y' & ys'' & Hy' & Hrest & ->)%Forall2_cons_inv_l.
           apply IH in Hrest. congruence.
      * split; [done|].
        intros (y' & ys'' & Hy' & Hrest & ->)%Forall2_cons_inv_l.
        apply IH in Hrest. congruence.
    + split; [done|].
      intros (y' & ys'' & Hy' & Hrest & ->)%Forall2_cons_inv_l. congruence.
Qed.

Lemma all_some_is_Some {A B : Type} (f : A -> option B) (l : list A) :
  is_Some (all_some (map f l)) <-> Forall (fun x => is_Some (f x)) l.
Proof.
  induction l as [|x l IH]; simpl.
  - split; [constructor | eauto].
  - rewrite Forall_cons, <- IH. destruct (f x) as [y|].
    + destruct (all_some (map f l)) as [ys|].
      * split; eauto.
      * split; [by intros [? ?] | by intros [_ [? ?]]].
    + split; [by intros [? ?] | by intros [[? ?] _]].
Qed.

Section json_facts.
Context {World : Type} `{External World}.

(** Numbers of up to 640 digits are converted whatever the limit is. *)
Lemma int_str_ok_small (z : Z) : (Z.abs z < 10 ^ 640)%Z -> int_str_ok z = true.
Proof.
  intros Hz. unfold int_str_ok. pose proof int_max_str_digits_range as Hr.
  apply orb_true_iff in Hr as [Hr|Hr]; [by rewrite Hr|].
  apply orb_true_iff. right. apply Z.ltb_lt. apply Z.leb_le in Hr.
  eapply Z.lt_le_trans; [exact Hz|]. apply Z.pow_le_mono_r; lia.
Qed.

(** At least two levels of nesting are available. *)
Lemma json_max_depth_two : exists n, json_max_depth = S (S n).
Proof.
  pose proof json_max_depth_range as Hr. apply Nat.leb_le in Hr.
  destruct json_max_depth as [|[|n]]; [lia | lia | eauto].
Qed.

(** When a container is encoded: every element is, one level down. *)
Lemma json_encode_list_is_Some (l : list PyVal) (n : nat) :
  is_Some (json_encode (PList l) (S n))
  <-> Forall (fun x => is_Some (json_encode x n)) l.
Proof.
  simpl. rewrite <- all_some_is_Some.
  destruct (all_some _); simpl; split; intros [? ?]; eauto; done.
Qed.

Lemma json_encode_dict_is_Some (d : PyDict) (n : nat) :
  is_Some (json_encode (PDict d) (S n))
  <-> Forall (fun kv => is_Some (json_key (fst kv))
                        /\ is_Some (json_encode (snd kv) n)) d.
Proof.
  simpl.
  assert (forall kv : PyKey * PyVal,
    is_Some (match json_key (fst kv), json_encode (snd kv) n with
             | Some name, Some j => Some (name, j)
             | _, _ => None
             end)
    <-> is_Some (json_key (fst kv)) /\ is_Some (json_encode (snd kv) n)) as Hitem.
  { intros kv. destruct (json_key (fst kv)), (json_encode (snd kv) n); split;
      first [ by eauto | by intros [? ?] | by intros [[? ?] [? ?]] ]. }
  rewrite <- (Forall_iff _ d _ Hitem), <- all_some_is_Some.
  destruct (all_some _); simpl; split; intros [? ?]; eauto; done.
Qed.

(** A record that is encoded stays encoded without its last fields. *)
Lemma json_dumps_prefix (d d' : PyDict) :
  is_Some (json_dumps (PDict (d ++ d')%list)) -> is_Some (json_dumps (PDict d)).
Proof.
  unfold json_dumps. destruct json_max_depth as [|n]; [by intros [? ?]|].
  rewrite !json_encode_dict_is_Some, Forall_app. tauto.
Qed.

(** What the decoder gives back for what the encoder wrote. *)
Lemma json_encode_decode (v : PyVal) : forall n j,
  json_native v = true -> json_encode v n = Some j -> json_decode j n = Some v.
Proof.
  induction v as [| b | z | f | s | l IH | l IH | d IH | t] using PyVal_deep_ind;
    intros n j Hn Hj; simpl in Hj; try discriminate.
  - by injection Hj as <-.
  - by injection Hj as <-.
  - destruct (int_str_ok z) eqn:Hz; [|done]. injection Hj as <-.
    simpl. by rewrite Hz.
  - by injection Hj as <-.
  - by injection Hj as <-.
  - destruct n as [|n]; [done|].
    destruct (all_some (map (fun x => json_encode x n) l)) as [js|] eqn:Hjs; [|done].
    injection Hj as <-. simpl. apply all_some_Some in Hjs.
    assert (all_some (map (fun x => json_decode x n) js) = Some l) as ->; [|done].
    apply all_some_Some. simpl in Hn. revert IH Hn.
    induction Hjs as [|x y l js Hxy _ IHl]; intros IH Hn; [constructor|].
    apply Forall_cons in IH as [Hx IH]. simpl in Hn.
    apply andb_prop in Hn as [Hnx Hnl].
    constructor; [by apply Hx | by apply IHl].
  - destruct n as [|n]; [done|].
    match type of Hj with context [all_some ?e] =>
      destruct (all_some e) as [js|] eqn:Hjs; [|done] end.
    injection Hj as <-. simpl. apply all_some_Some in Hjs.
    simpl in Hn. apply andb_prop in Hn as [Hnd Hn].
    apply bool_decide_eq_true in Hnd.
    assert (all_some
              (map (fun kv : string * Json =>
                      match json_decode (snd kv) n with
                      | Some x => Some (KStr (fst kv), x)
                      | None => None
                      end) js) = Some d) as ->.
    { apply all_some_Some. clear Hnd. revert IH Hn.
      induction Hjs as [|[k x] [name y] d js Hxy _ IHd]; intros IH Hn; [constructor|].
      apply Forall_cons in IH as [Hx IH]. simpl in Hn, Hx, Hxy.
      apply andb_prop in Hn as [Hnx Hnl]. apply andb_prop in Hnx as [Hk Hnx].
      destruct k as [s|z]; [|done]. simpl in Hxy.
      destruct (json_encode x n) as [j|] eqn:Hj; [|done].
      injection Hxy as <- <-.
      constructor; [|by apply IHd]. simpl. by rewrite (Hx n j Hnx Hj). }
    simpl. by rewrite dict_of_items_NoDup.
Qed.

(** Whatever the decoder returns is JSON-native. *)
Lemma json_decode_native (j : Json) : forall n v,
  json_decode j n = Some v -> json_native v = true.
Proof.
  induction j as [| b | z | f | s | l IH | m IH] using Json_deep_ind;
    intros n v Hv; simpl in Hv.
  - by injection Hv as <-.
  - by injection Hv as <-.
  - destruct (int_str_ok z); [|done]. by injection Hv as <-.
  - by injection Hv as <-.
  - by injection Hv as <-.
  - destruct n as [|n]; [done|].
    destruct (all_some (map (fun x => json_decode x n) l)) as [xs|] eqn:Hxs; [|done].
    injection Hv as <-. simpl. apply all_some_Some in Hxs.
    revert IH. induction Hxs as [|x y l xs Hxy _ IHl]; intros IH; [done|].
    apply Forall_cons in IH as [Hx IH]. simpl.
    by rewrite (Hx n y Hxy), IHl.
  - destruct n as [|n]; [done|].
    match type of Hv with context [all_some ?e] =>
      destruct (all_some e) as [items|] eqn:Hitems; [|done] end.
    injection Hv as <-. apply all_some_Some in Hitems.
    assert (Forall (fun kv : PyKey * PyVal =>
                      match fst kv with KStr _ => true | KInt _ => false end
                      && json_native (snd kv) = true) items) as Hall.
    { revert IH. induction Hitems as [|[name y] [k x] m items Hxy _ IHm];
        intros IH; [constructor|].
      apply Forall_cons in IH as [Hx IH]. simpl in Hx, Hxy.
      destruct (json_decode y n) as [x'|] eqn:Hy; [|done].
      injection Hxy as <- <-.
      constructor; [|by apply IHm]. simpl. by apply (Hx n). }
    simpl. apply andb_true_intro. split.
    + apply bool_decide_eq_true, dict_of_items_keys_NoDup.
    + apply (dict_of_items_Forall _ _) in Hall.
      induction Hall as [|kv d' Hkv _ IHd]; simpl; [done|]. by rewrite Hkv, IHd.
Qed.

(** Whatever the decoder returns, the encoder accepts. *)
Lemma json_decode_encodes (j : Json) : forall n v,
  json_decode j n = Some v -> is_Some (json_encode v n).
Proof.
  induction j as [| b | z | f | s | l IH | m IH] using Json_deep_ind;
    intros n v Hv; simpl in Hv.
  - injection Hv as <-. simpl. eauto.
  - injection Hv as <-. simpl. eauto.
  - destruct (int_str_ok z) eqn:Hz; [|done]. injection Hv as <-.
    simpl. rewrite Hz. eauto.
  - injection Hv as <-. simpl. eauto.
  - injection Hv as <-. simpl. eauto.
  - destruct n as [|n]; [done|].
    destruct (all_some (map (fun x => json_decode x n) l)) as [xs|] eqn:Hxs; [|done].
    injection Hv as <-. apply json_encode_list_is_Some.
    apply all_some_Some in Hxs.
    revert IH. induction Hxs as [|x y l xs Hxy _ IHl]; intros IH; [constructor|].
    apply Forall_cons in IH as [Hx IH].
    constructor; [by apply (Hx n) | by apply IHl].
  - destruct n as [|n]; [done|].
    match type of Hv with context [all_some ?e] =>
      destruct (all_some e) as [items|] eqn:Hitems; [|done] end.
    injection Hv as <-. apply json_encode_dict_is_Some.
    apply dict_of_items_Forall. apply all_some_Some in Hitems.
    revert IH. induction Hitems as [|[name y] [k x] m items Hxy _ IHm];
      intros IH; [constructor|].
    apply Forall_cons in IH as [Hx IH]. simpl in Hx, Hxy.
    destruct (json_decode y n) as [x'|] eqn:Hy; [|done].
    injection Hxy as <- <-.
    constructor; [|by apply IHm]. simpl. split; [eauto | by apply (Hx n)].
Qed.

(** Whatever the encoder writes, the decoder reads. *)
Lemma json_encode_decodes (v : PyVal) : forall n j,
  json_encode v n = Some j -> is_Some (json_decode j n).
Proof.
  assert (forall (l : list PyVal) n js,
    Forall (fun x => forall n j, json_encode x n = Some j -> is_Some (json_decode j n)) l ->
    all_some (map (fun x => json_encode x n) l) = Some js ->
    is_Some (json_decode (JArray js) (S n))) as Hseq.
  { intros l n js IH Hjs. simpl.
    assert (is_Some (all_some (map (fun x => json_decode x n) js))) as [xs ->];
      [|simpl; eauto].
    apply all_some_is_Some. apply all_some_Some in Hjs.
    revert IH. induction Hjs as [|x y l js Hxy _ IHl]; intros IH; [constructor|].
    apply Forall_cons in IH as [Hx IH].
    constructor; [by apply (Hx n) | by apply IHl]. }
  induction v as [| b | z | f | s | l IH | l IH | d IH | t] using PyVal_deep_ind;
    intros n j Hj; simpl in Hj; try discriminate.
  - injection Hj as <-. simpl. eauto.
  - injection Hj as <-. simpl. eauto.
  - destruct (int_str_ok z) eqn:Hz; [|done]. injection Hj as <-.
    simpl. rewrite Hz. eauto.
  - injection Hj as <-. simpl. eauto.
  - injection Hj as <-. simpl. eauto.
  - destruct n as [|n]; [done|].
    destruct (all_some (map (fun x => json_encode x n) l)) as [js|] eqn:Hjs; [|done].
    injection Hj as <-. by apply (Hseq l).
  - destruct n as [|n]; [done|].
    destruct (all_some (map (fun x => json_encode x n) l)) as [js|] eqn:Hjs; [|done].
    injection Hj as <-. by apply (Hseq l).
  - destruct n as [|n]; [done|].
    match type of Hj with context [all_some ?e] =>
      destruct (all_some e) as [js|] eqn:Hjs; [|done] end.
    injection Hj as <-. simpl.
    match goal with |- context [all_some ?e] =>
      assert (is_Some (all_some e)) as [items ->]; [|simpl; eauto] end.
    apply all_some_is_Some. apply all_some_Some in Hjs.
    revert IH. induction Hjs as [|[k x] [name y] d js Hxy _ IHd]; intros IH;
      [constructor|].
    apply Forall_cons in IH as [Hx IH]. simpl in Hx, Hxy.
    destruct (json_key k) as [name'|]; [|done].
    destruct (json_encode x n) as [j|] eqn:Hj; [|done].
    injection Hxy as <- <-.
    constructor; [|by apply IHd]. simpl.
    destruct (Hx n j Hj) as [x' ->]. eauto.
Qed.

(** A dictionary with distinct [str] keys is read back as a dictionary
    with the same keys in the same order, whatever its values are. *)
Lemma json_dumps_loads_keys (d : PyDict) (j : Json) :
  json_dumps (PDict d) = Some j ->
  Forall (fun kv => exists s, fst kv = KStr s) d ->
  NoDup (map fst d) ->
  exists d', json_loads j = Some (PDict d') /\ map fst d' = map fst d.
Proof.
  unfold json_dumps, json_loads. destruct json_max_depth as [|n]; [done|].
  intros Hj Hk Hnd. simpl in Hj.
  match type of Hj with context [all_some ?e] =>
    destruct (all_some e) as [js|] eqn:Hjs; [|done] end.
  injection Hj as <-. apply all_some_Some in Hjs.
  assert (exists items,
    all_some (map (fun kv : string * Json =>
                     match json_decode (snd kv) n with
                     | Some x => Some (KStr (fst kv), x)
                     | None => None
                     end) js) = Some items
    /\ map fst items = map fst d) as (items & Hitems & Hkeys).
  { clear Hnd. induction Hjs as [|[k x] [name y] d js Hxy _ IHd]; [by exists []|].
    apply Forall_cons in Hk as [[s Hs] Hk]. simpl in Hs. subst k. simpl in Hxy.
    destruct (json_encode x n) as [jx|] eqn:Hx; [|done]. injection Hxy as <- <-.
    destruct (json_encode_decodes x n jx Hx) as [x' Hx'].
    destruct (IHd Hk) as (items & Hitems & Hkeys).
    exists ((KStr s, x') :: items). simpl. rewrite Hx', Hitems. simpl.
    by rewrite Hkeys. }
  exists items. simpl. rewrite Hitems. simpl.
  rewrite dict_of_items_NoDup; [done|]. by rewrite Hkeys.
Qed.

(** [json.loads(json.dumps(v))] for a JSON-native [v]. *)
Lemma json_round_trip (v : PyVal) (j : Json) :
  json_native v = true -> json_dumps v = Some j -> json_loads j = Some v.
Proof. apply json_encode_decode. Qed.

(** A value that [json.loads] returned is JSON-native and is written
    and read back by [json.dumps] and [json.loads] in turn. *)
Lemma json_loads_dumps (j : Json) (v : PyVal) :
  json_loads j = Some v ->
  json_native v = true
  /\ exists j', json_dumps v = Some j' /\ json_loads j' = Some v.
Proof.
  intros Hv. pose proof (json_decode_native j _ v Hv) as Hn.
  split; [exact Hn|].
  destruct (json_decode_encodes j _ v Hv) as [j' Hj'].
  exists j'. split; [exact Hj'|]. by apply json_round_trip.
Qed.

(** Only values of the JSON types are encoded. *)
Lemma json_encode_serializable (v : PyVal) : forall n,
  is_Some (json_encode v n) -> serializable v = true.
Proof.
  induction v as [| b | z | f | s | l IH | l IH | d IH | t] using PyVal_deep_ind;
    intros n Hv; try done.
  - destruct n as [|n]; [by destruct Hv|].
    apply json_encode_list_is_Some in Hv. simpl.
    induction IH as [|x l Hx _ IHl]; [done|].
    apply Forall_cons in Hv as [Hvx Hvl]. simpl.
    by rewrite (Hx n Hvx), IHl.
  - destruct n as [|n]; [by destruct Hv|].
    change (json_encode (PTuple l) (S n)) with (json_encode (PList l) (S n)) in Hv.
    apply json_encode_list_is_Some in Hv. simpl.
    induction IH as [|x l Hx _ IHl]; [done|].
    apply Forall_cons in Hv as [Hvx Hvl]. simpl.
    by rewrite (Hx n Hvx), IHl.
  - destruct n as [|n]; [by destruct Hv|].
    apply json_encode_dict_is_Some in Hv. simpl.
    induction IH as [|[k x] d Hx _ IHd]; [done|].
    apply Forall_cons in Hv as [[_ Hvx] Hvd]. simpl in *.
    by rewrite (Hx n Hvx), IHd.
  - by destruct Hv.
Qed.
End json_facts.

(** A JSON-native value without NaN is equal to itself in Python's
    sense. *)
Lemma py_eq_refl (v : PyVal) :
  json_native v = true -> nan_free v = true -> py_eq v v = true.
Proof.
  induction v as [| b | z | f | s | l IH | l IH | d IH | t] using PyVal_deep_ind;
    intros Hn Hf; try discriminate; try reflexivity.
  - simpl. apply Z.eqb_refl.
  - simpl. apply Z.eqb_refl.
  - simpl in *. unfold is_nan in Hf. by apply negb_true_iff, negb_false_iff in Hf.
  - simpl. apply String.eqb_refl.
  - simpl in *. induction IH as [|x l Hx _ IHl]; [done|].
    simpl in Hn, Hf. apply andb_prop in Hn as [Hnx Hnl].
    apply andb_prop in Hf as [Hfx Hfl].
    rewrite (Hx Hnx Hfx). simpl. by apply IHl.
  - simpl in Hn. apply andb_prop in Hn as [Hnd Hn].
    apply bool_decide_eq_true in Hnd.
    simpl. rewrite Nat.eqb_refl. simpl.
    assert (forall d1 : PyDict,
      (forall k x, (k, x) ∈ d1 -> dict_get k d = Some x) ->
      Forall (fun kv => json_native (snd kv) = true -> nan_free (snd kv) = true ->
                        py_eq (snd kv) (snd kv) = true) d1 ->
      forallb (fun kv => match fst kv with KStr _ => true | KInt _ => false end
                         && json_native (snd kv)) d1 = true ->
      forallb (fun kv => nan_free (snd kv)) d1 = true ->
      (fix sub_dict (d1 d2 : PyDict) : bool :=
         match d1 with
         | [] => true
         | (k, x) :: d1' =>
             match dict_get k d2 with
             | Some y => py_eq x y && sub_dict d1' d2
             | None => false
             end
         end) d1 d = true) as Hsub.
    { intros d1 Hget Hall Hnat Hnan.
      induction Hall as [|[k x] d1 Hx _ IHd1]; [done|].
      simpl in Hnat, Hnan. apply andb_prop in Hnat as [Hkx Hnat].
      apply andb_prop in Hkx as [_ Hnx]. apply andb_prop in Hnan as [Hfx Hnan].
      rewrite (Hget k x); [|apply list_elem_of_here].
      simpl in Hx. rewrite (Hx Hnx Hfx). simpl.
      apply IHd1; [|done|done]. intros k' x' Hin. apply Hget.
      by apply list_elem_of_further. }
    apply Hsub; [|done|done|done].
    intros k x Hin. by apply dict_get_NoDup.
Qed.

(** ** Memory Store *)

Section memory_store.
Context {World : Type} `{External World}.
Implicit Types (st : State World) (k : string) (v : PyVal).

(** A write succeeds exactly when [json.dumps] accepts the value. *)
Lemma store_succeeds_iff k v st :
  fst (_store_coordination_memory k v st) = true <-> is_Some (json_dumps v).
Proof.
  unfold _store_coordination_memory.
  destruct (json_dumps v) as [j|].
  - destruct (datetime_now (world st)) as [now w1]. simpl. split; eauto.
  - simpl. split; [done | by intros [? ?]].
Qed.

(** After a write the row under the key holds the written document. *)
Lemma store_writes_document k v j st :
  json_dumps v = Some j ->
  exists row, row_value row = Document j /\ row_ttl row = None
    /\ memory_db (snd (_store_coordination_memory k v st))
       = Some (<[k := row]> (default ∅ (memory_db st))).
Proof.
  intros Hj. unfold _store_coordination_memory. rewrite Hj.
  destruct (datetime_now (world st)) as [now w1]. simpl.
  eexists. split; [|split]; [| |reflexivity]; reflexivity.
Qed.

Lemma load_after_store k v j st :
  json_dumps v = Some j ->
  _load_coordination_memory k (snd (_store_coordination_memory k v st))
  = default PNone (json_loads j).
Proof.
  intros Hj. destruct (store_writes_document k v j st Hj) as (row & Hv & _ & Hdb).
  unfold _load_coordination_memory. rewrite Hdb, lookup_insert_eq. by rewrite Hv.
Qed.

Lemma load_after_store_other k k' v st :
  k ≠ k' ->
  _load_coordination_memory k' (snd (_store_coordination_memory k v st))
  = _load_coordination_memory k' st.
Proof.
  intros Hne. unfold _load_coordination_memory, _store_coordination_memory.
  destruct (json_dumps v) as [j|].
  - destruct (datetime_now (world st)) as [now w1]. simpl.
    rewrite lookup_insert_ne; [|done]. by destruct (memory_db st).
  - simpl. by destruct (memory_db st).
Qed.

(** A failed write changes no record. *)
Lemma load_after_failed_store k k' v st :
  json_dumps v = None ->
  _load_coordination_memory k' (snd (_store_coordination_memory k v st))
  = _load_coordination_memory k' st.
Proof.
  intros Hj. unfold _load_coordination_memory, _store_coordination_memory.
  rewrite Hj. simpl. by destruct (memory_db st).
Qed.

(** A key that was never written is absent. *)
Lemma load_absent k st :
  (forall table, memory_db st = Some table -> table !! k = None) ->
  _load_coordination_memory k st = PNone.
Proof.
  intros Hk. unfold _load_coordination_memory.
  destruct (memory_db st) as [table|]; [|done]. by rewrite (Hk table).
Qed.

(** Whatever is read from the store is JSON-native and accepted by
    [json.dumps]. *)
Lemma load_native k st :
  json_native (_load_coordination_memory k st) = true
  /\ exists j, json_dumps (_load_coordination_memory k st) = Some j
               /\ json_loads j = Some (_load_coordination_memory k st).
Proof.
  assert (json_native PNone = true
          /\ exists j, json_dumps PNone = Some j /\ json_loads j = Some PNone)
    as Hnone.
  { split; [done|]. exists JNull. unfold json_dumps, json_loads.
    by destruct json_max_depth. }
  unfold _load_coordination_memory.
  destruct (memory_db st) as [table|]; [|exact Hnone].
  destruct (table !! k) as [row|]; [|exact Hnone].
  destruct (row_value row) as [j|raw]; [|exact Hnone].
  destruct (json_loads j) as [v|] eqn:Hv; [|exact Hnone].
  simpl. by apply (json_loads_dumps j).
Qed.

(** Read after a successful write of a JSON-native value. *)
Lemma store_then_load k v st :
  json_native v = true ->
  fst (_store_coordination_memory k v st) = true ->
  _load_coordination_memory k (snd (_store_coordination_memory k v st)) = v.
Proof.
  intros Hn Hok. apply store_succeeds_iff in Hok as [j Hj].
  rewrite (load_after_store k v j st Hj).
  by rewrite (json_round_trip v j Hn Hj).
Qed.

(** C7 (amended): for every key and every JSON-native value (null,
    booleans, integers, floats, strings, lists, dictionaries with
    distinct string keys, nested at will), the read that follows a
    successful write returns that very value; and the value read is
    deep-equal ([==]) to the one written when it holds no NaN. *)
Theorem store_then_load_json_native k v st :
  json_native v = true ->
  fst (_store_coordination_memory k v st) = true ->
  _load_coordination_memory k (snd (_store_coordination_memory k v st)) = v
  /\ (nan_free v = true ->
      py_eq v (_load_coordination_memory k
                 (snd (_store_coordination_memory k v st))) = true).
Proof.
  intros Hn Hok. pose proof (store_then_load k v st Hn Hok) as Hget.
  split; [exact Hget|]. intros Hf. rewrite Hget. by apply py_eq_refl.
Qed.

(** C8 (amended): after [put(k, v1); put(k, v2)] with any [v1] and a
    JSON-native [v2] whose write succeeds, [get(k)] returns [v2]; it
    returns [v1] only if the two are the same value. Records under other
    keys are as the first write left them. *)
Theorem overwrite_last_write_wins k v1 v2 st :
  json_native v2 = true ->
  let st1 := snd (_store_coordination_memory k v1 st) in
  let st2 := snd (_store_coordination_memory k v2 st1) in
  fst (_store_coordination_memory k v2 st1) = true ->
  _load_coordination_memory k st2 = v2
  /\ (v1 ≠ v2 -> _load_coordination_memory k st2 ≠ v1)
  /\ (forall k', k' ≠ k ->
        _load_coordination_memory k' st2 = _load_coordination_memory k' st1).
Proof.
  intros Hn st1 st2 Hok.
  pose proof (store_then_load k v2 st1 Hn Hok) as Hget.
  split; [exact Hget|]. split.
  - intros Hne Heq. apply Hne. unfold st2 in Heq. congruence.
  - intros k' Hne. unfold st2. by apply load_after_store_other.
Qed.
End memory_store.

(** ** Slicing *)

(** A slice is a prefix of the string it was taken from. *)
Lemma str_take_prefix (n : nat) (s : string) :
  exists rest, s = str_take n s +:+ rest.
Proof.
  revert n. induction s as [|c s IH]; intros n; simpl.
  - by exists "".
  - destruct (utf8_continuation c).
    + destruct (IH n) as [rest Hrest]. exists rest.
      change (String c s = String c (str_take n s +:+ rest)). congruence.
    + destruct n as [|n].
      * by exists (String c s).
      * destruct (IH n) as [rest Hrest]. exists rest.
        change (String c s = String c (str_take n s +:+ rest)). congruence.
Qed.

(** ** Sequential dispatch *)

Lemma record_onto_snoc (results : PyDict) (calls : list Call) (c : Call) :
  record_onto results (calls ++ [c])
  = dict_set (KStr (call_name c)) (recorded (call_outcome c))
      (record_onto results calls).
Proof. unfold record_onto. by rewrite fold_left_app. Qed.

Lemma commit_onto_snoc (findings : PyDict) (calls : list Call) (c : Call) :
  commit_onto findings (calls ++ [c])
  = match call_outcome c with
    | Returned response =>
        dict_set (KStr (call_name c)) response (commit_onto findings calls)
    | Raised _ => commit_onto findings calls
    end.
Proof. unfold commit_onto. by rewrite fold_left_app. Qed.

Lemma committed_by_app_l (calls more : list Call) name response :
  committed_by calls name response -> committed_by (calls ++ more) name response.
Proof.
  intros (j & c & Hj & Hname & Hout). exists j, c.
  split; [|done]. by apply lookup_app_l_Some.
Qed.

Lemma committed_by_take (calls : list Call) (i : nat) name response :
  committed_by (take i calls) name response
  <-> exists j c, j < i /\ calls !! j = Some c /\ call_name c = name
                  /\ call_outcome c = Returned response.
Proof.
  unfold committed_by. split.
  - intros (j & c & Hj & Hrest). apply lookup_take_Some in Hj as [Hj Hlt]. eauto.
  - intros (j & c & Hlt & Hj & Hrest). exists j, c. split; [|done].
    by apply lookup_take_Some.
Qed.

(** Every finding was committed by one of the calls. *)
Lemma commit_onto_sound (calls : list Call) name response :
  dict_get (KStr name) (commit_onto [] calls) = Some response ->
  committed_by calls name response.
Proof.
  induction calls as [|c calls IH] using rev_ind; [done|].
  rewrite commit_onto_snoc.
  destruct (call_outcome c) as [x|msg] eqn:Hout.
  - destruct (decide (call_name c = name)) as [Hname|Hname].
    + rewrite Hname, dict_get_set_eq. intros [= ->].
      exists (length calls), c. split; [|done].
      by rewrite lookup_app_r, Nat.sub_diag.
    + rewrite dict_get_set_ne by congruence.
      intros Hget. by apply committed_by_app_l, IH.
  - intros Hget. by apply committed_by_app_l, IH.
Qed.

(** With distinct worker names every committed result stays in place. *)
Lemma commit_onto_complete (calls : list Call) name response :
  NoDup (map call_name calls) ->
  committed_by calls name response ->
  dict_get (KStr name) (commit_onto [] calls) = Some response.
Proof.
  induction calls as [|c calls IH] using rev_ind; intros Hnd (j & cj & Hj & Hname & Hout).
  - done.
  - rewrite map_app in Hnd. apply NoDup_app in Hnd as (Hnd & Hdis & _).
    rewrite commit_onto_snoc.
    apply lookup_app_Some in Hj as [Hj|[Hge Hj]].
    + assert (call_name c ≠ name) as Hne.
      { intros Heq. apply (Hdis (call_name cj)).
        - apply (list_elem_of_fmap_2 call_name), list_elem_of_lookup. eauto.
        - rewrite Hname, <- Heq. simpl. apply list_elem_of_here. }
      assert (dict_get (KStr name) (commit_onto [] calls) = Some response) as Hget.
      { apply IH; [done|]. exists j, cj. done. }
      destruct (call_outcome c); [|done].
      rewrite dict_get_set_ne by congruence. done.
    + destruct (j - length calls) as [|n] eqn:Hn; [|by destruct n].
      simpl in Hj. injection Hj as ->. rewrite Hout, Hname.
      apply dict_get_set_eq.
Qed.

(** A worker that has not been called yet has no finding. *)
Lemma commit_onto_absent (calls : list Call) name :
  name ∉ map call_name calls ->
  dict_get (KStr name) (commit_onto [] calls) = None.
Proof.
  intros Hnot. destruct (dict_get (KStr name) (commit_onto [] calls)) as [r|] eqn:Hget;
    [|done].
  exfalso. apply Hnot. apply commit_onto_sound in Hget as (j & c & Hj & Hname & _).
  rewrite <- Hname. apply (list_elem_of_fmap_2 call_name), list_elem_of_lookup. eauto.
Qed.

(** With distinct worker names [results] holds one entry per call, in
    the order of the calls. *)
Lemma record_onto_NoDup (calls : list Call) :
  NoDup (map call_name calls) ->
  record_onto [] calls
  = map (fun c => (KStr (call_name c), recorded (call_outcome c))) calls.
Proof.
  induction calls as [|c calls IH] using rev_ind; intros Hnd; [done|].
  rewrite map_app in Hnd. apply NoDup_app in Hnd as (Hnd & Hdis & _).
  rewrite record_onto_snoc, IH by done. rewrite map_app. simpl.
  apply dict_set_fresh. rewrite map_map. simpl.
  intros Hin. apply list_elem_of_fmap in Hin as (c' & Heq & Hin).
  injection Heq as Heq. apply (Hdis (call_name c')).
  - by apply (list_elem_of_fmap_2 call_name).
  - rewrite <- Heq. simpl. apply list_elem_of_here.
Qed.

Lemma record_onto_lookup (calls : list Call) (j : nat) (c : Call) :
  NoDup (map call_name calls) ->
  calls !! j = Some c ->
  dict_get (KStr (call_name c)) (record_onto [] calls)
  = Some (recorded (call_outcome c)).
Proof.
  intros Hnd Hj. rewrite record_onto_NoDup by done.
  apply dict_get_NoDup.
  - rewrite map_map. simpl.
    rewrite <- (map_map call_name KStr). apply NoDup_fmap_2; [|done].
    intros x y [= ->]. done.
  - apply (list_elem_of_fmap_2 (fun c => (KStr (call_name c), recorded (call_outcome c)))).
    apply list_elem_of_lookup. eauto.
Qed.

Section dispatch_facts.
Context {World : Type} `{External World}.

(** The loop in terms of its calls: the workers are called in order, each
    with the findings committed so far, and both mappings are the folds
    of the calls. *)
Lemma dispatch_spec issue todo results dm (w : World) findings :
  agent_findings dm = Some findings ->
  exists results_n dm_n w_n calls,
    dispatch issue todo results dm w = (results_n, dm_n, w_n, calls)
    /\ map call_agent calls = todo
    /\ results_n = record_onto results calls
    /\ agent_findings dm_n = Some (commit_onto findings calls)
    /\ current_issue dm_n = current_issue dm
    /\ forall i c, calls !! i = Some c ->
         call_prompt c = ContextPrompt issue (commit_onto findings (take i calls)).
Proof.
  revert results dm w findings.
  induction todo as [|agent rest IH]; intros results dm w findings Hf.
  - exists results, dm, w, []. simpl. repeat split; try done.
  - simpl. rewrite Hf. simpl.
    destruct (agent_run agent (ContextPrompt issue findings) w) as [out w1] eqn:Hrun.
    destruct out as [response|msg].
    + destruct (IH (dict_set (KStr (agent_name agent)) response results)
                  {| current_issue := current_issue dm;
                     agent_findings :=
                       Some (dict_set (KStr (agent_name agent)) response findings) |}
                  w1 _ eq_refl)
        as (rn & dmn & wn & calls & Hd & Hmap & Hres & Hfind & Hissue & Hprompt).
      rewrite Hd. eexists _, _, _, _. split; [reflexivity|].
      split; [simpl; by rewrite Hmap|].
      split; [exact Hres|]. split; [exact Hfind|]. split; [exact Hissue|].
      intros [|i] c Hc; simpl in Hc.
      * injection Hc as <-. done.
      * simpl. by apply Hprompt.
    + destruct (IH (dict_set (KStr (agent_name agent)) (PStr ("Error: " +:+ msg)) results)
                  dm w1 findings Hf)
        as (rn & dmn & wn & calls & Hd & Hmap & Hres & Hfind & Hissue & Hprompt).
      rewrite Hd. eexists _, _, _, _. split; [reflexivity|].
      split; [simpl; by rewrite Hmap|].
      split; [exact Hres|]. split; [exact Hfind|]. split; [exact Hissue|].
      intros [|i] c Hc; simpl in Hc.
      * injection Hc as <-. done.
      * simpl. by apply Hprompt.
Qed.

(** [coordinate_debugging] in terms of its calls. *)
Lemma coordinate_debugging_spec issue sw (w : World) :
  exists results dm w' calls,
    coordinate_debugging_calls issue sw w
    = (results, with_debug_memory dm sw, w', calls)
    /\ coordinate_debugging issue sw w = (results, with_debug_memory dm sw, w')
    /\ map call_agent calls = agents sw
    /\ results = record_onto [] calls
    /\ agent_findings dm = Some (commit_onto [] calls)
    /\ current_issue dm = Some issue
    /\ forall i c, calls !! i = Some c ->
         call_prompt c = ContextPrompt issue (commit_onto [] (take i calls)).
Proof.
  unfold coordinate_debugging, coordinate_debugging_calls. simpl.
  destruct (dispatch_spec issue (agents sw) []
              {| current_issue := Some issue; agent_findings := Some [] |} w [] eq_refl)
    as (rn & dmn & wn & calls & Hd & Hmap & Hres & Hfind & Hissue & Hprompt).
  rewrite Hd. exists rn, dmn, wn, calls. repeat split; done.
Qed.

(** The recorded calls are the calls that were made. *)
Lemma dispatch_calls_made issue todo :
  forall results dm (w : World) results_n dm_n w_n calls,
    dispatch issue todo results dm w = (results_n, dm_n, w_n, calls) ->
    calls_made w calls w_n.
Proof.
  induction todo as [|agent rest IH];
    intros results dm w rn dmn wn calls Hd; simpl in Hd.
  - injection Hd as E1 E2 E3 E4. subst. reflexivity.
  - destruct (agent_run agent _ w) as [out w1] eqn:Hrun.
    destruct out as [response|msg]; [destruct (agent_findings dm) as [findings|]|];
      (match type of Hd with context [dispatch issue rest ?r ?d w1] =>
         destruct (dispatch issue rest r d w1) as [[[r2 d2] w2] cs] eqn:Hrest end;
       injection Hd as E1 E2 E3 E4; subst; simpl;
       exists w1; split; [exact Hrun | by eapply IH]).
Qed.

Lemma coordinate_debugging_calls_made issue sw (w : World) results sw' w' calls :
  coordinate_debugging_calls issue sw w = (results, sw', w', calls) ->
  coordinate_debugging issue sw w = (results, sw', w')
  /\ calls_made w calls w'.
Proof.
  intros Hrun. split.
  - unfold coordinate_debugging. by rewrite Hrun.
  - unfold coordinate_debugging_calls in Hrun.
    match type of Hrun with context [dispatch issue ?t ?r ?d w] =>
      destruct (dispatch issue t r d w) as [[[r2 d2] w2] cs] eqn:Hd end.
    injection Hrun as E1 E2 E3 E4. subst. by eapply dispatch_calls_made.
Qed.

Lemma calls_names issue sw (w : World) results sw' w' calls :
  coordinate_debugging_calls issue sw w = (results, sw', w', calls) ->
  map call_name calls = map agent_name (agents sw).
Proof.
  intros Hrun.
  destruct (coordinate_debugging_spec issue sw w)
    as (r & dm & w0 & cs & Hc & _ & Hmap & _).
  rewrite Hc in Hrun. injection Hrun as -> _ -> ->.
  rewrite <- Hmap, map_map. done.
Qed.

(** C3 (amended): in every dispatch over workers with pairwise distinct
    names, the recorded calls are the calls [coordinate_debugging] made,
    one per worker in order, and the context prompt passed to the worker
    at position [i] carries exactly the results committed by the calls
    before it (a result is in the findings if and only if one of the
    first [i] calls returned it under that worker's name) and nothing
    under the name of any worker at position [i] or later. *)
Theorem visibility_ordering issue sw (w : World) results sw' w' calls i c :
  NoDup (map agent_name (agents sw)) ->
  coordinate_debugging_calls issue sw w = (results, sw', w', calls) ->
  calls !! i = Some c ->
  coordinate_debugging issue sw w = (results, sw', w')
  /\ calls_made w calls w'
  /\ agents sw !! i = Some (call_agent c)
  /\ exists findings,
       call_prompt c = ContextPrompt issue findings
       /\ (forall name response,
             dict_get (KStr name) findings = Some response
             <-> committed_by (take i calls) name response)
       /\ (forall k ck, i <= k -> calls !! k = Some ck ->
             dict_get (KStr (call_name ck)) findings = None).
Proof.
  intros Hnd Hrun Hi.
  pose proof (calls_names _ _ _ _ _ _ _ Hrun) as Hnames.
  destruct (coordinate_debugging_calls_made _ _ _ _ _ _ _ Hrun) as [Hcd Hmade].
  split; [exact Hcd|]. split; [exact Hmade|].
  destruct (coordinate_debugging_spec issue sw w)
    as (r & dm & w0 & cs & Hc & _ & Hmap & _ & _ & _ & Hprompt).
  rewrite Hc in Hrun. injection Hrun as -> _ -> ->.
  assert (NoDup (map call_name calls)) as Hndc by (by rewrite Hnames).
  split.
  { rewrite <- Hmap. by rewrite list_lookup_fmap, Hi. }
  exists (commit_onto [] (take i calls)). split; [by apply Hprompt|]. split.
  - intros name response. split; [apply commit_onto_sound|].
    apply commit_onto_complete.
    rewrite <- (take_drop i calls), map_app in Hndc.
    by apply NoDup_app in Hndc as (? & _).
  - intros k ck Hle Hk. apply commit_onto_absent.
    rewrite <- (take_drop i calls), map_app in Hndc.
    apply NoDup_app in Hndc as (_ & Hdis & _).
    intros Hin. apply (Hdis _ Hin).
    apply (list_elem_of_fmap_2 call_name), list_elem_of_lookup.
    exists (k - i). rewrite lookup_drop. by replace (i + (k - i)) with k by lia.
Qed.

(** C4 (amended): in every dispatch over workers with pairwise distinct
    names in which the call of worker [j] raises with message [msg], the
    recorded calls are the calls [coordinate_debugging] made: every
    worker is still called, in order; the result mapping holds
    ["Error: " ++ msg] under [j]'s name and, under the name of every
    other worker, what that worker's own call produced; there is one
    entry per worker, in dispatch order. *)
Theorem worker_isolation issue sw (w : World) results sw' w' calls j cj msg :
  NoDup (map agent_name (agents sw)) ->
  coordinate_debugging_calls issue sw w = (results, sw', w', calls) ->
  calls !! j = Some cj ->
  call_outcome cj = Raised msg ->
  coordinate_debugging issue sw w = (results, sw', w')
  /\ calls_made w calls w'
  /\ map call_agent calls = agents sw
  /\ dict_get (KStr (call_name cj)) results = Some (PStr ("Error: " +:+ msg))
  /\ (forall k ck, k ≠ j -> calls !! k = Some ck ->
        dict_get (KStr (call_name ck)) results = Some (recorded (call_outcome ck)))
  /\ map fst results = map (fun a => KStr (agent_name a)) (agents sw).
Proof.
  intros Hnd Hrun Hj Hout.
  pose proof (calls_names _ _ _ _ _ _ _ Hrun) as Hnames.
  destruct (coordinate_debugging_calls_made _ _ _ _ _ _ _ Hrun) as [Hcd Hmade].
  split; [exact Hcd|]. split; [exact Hmade|].
  destruct (coordinate_debugging_spec issue sw w)
    as (r & dm & w0 & cs & Hc & _ & Hmap & Hres & _).
  rewrite Hc in Hrun. injection Hrun as -> <- -> ->.
  assert (NoDup (map call_name calls)) as Hndc by (by rewrite Hnames).
  split; [exact Hmap|]. split; [|split].
  - rewrite Hres, (record_onto_lookup calls j cj) by done. by rewrite Hout.
  - intros k ck _ Hk. rewrite Hres. by apply (record_onto_lookup calls k).
  - rewrite Hres, record_onto_NoDup by done.
    rewrite map_map. simpl. rewrite <- Hmap, map_map. done.
Qed.

End dispatch_facts.

(** ** Hook Gateway *)

Section coordinator_facts.
Context {World : Type} `{External World}.
Implicit Types (st : State World).

(** A hook touches neither the database nor the swarm. *)
Lemma hook_frame hook params st :
  memory_db (snd (_claude_flow_hook hook params st)) = memory_db st
  /\ swarm (self (snd (_claude_flow_hook hook params st))) = swarm (self st).
Proof.
  unfold _claude_flow_hook.
  destruct (subprocess_run _ _) as [[rc out err|msg] w1]; [|done].
  destruct (datetime_now w1) as [now w2]. by destruct (rc =? 0)%Z.
Qed.

(** A process that completes with a non-zero exit code is logged as a
    failure with its standard error, and the hook returns [False]. *)
Lemma hook_nonzero_exit_logged hook params st rc out err w1 now w2 :
  subprocess_run (cmd_parts hook params) (world st) = (Completed rc out err, w1) ->
  rc ≠ 0%Z ->
  datetime_now w1 = (now, w2) ->
  _claude_flow_hook hook params st
  = (false,
     log_append {| log_timestamp := isoformat now; log_hook := hook;
                   log_params := params; log_success := false;
                   log_captured := Error err |} (set_world w2 st)).
Proof.
  intros Hrun Hrc Hnow. unfold _claude_flow_hook. rewrite Hrun, Hnow.
  destruct (Z.eqb_spec rc 0); [done | reflexivity].
Qed.

(** A hook never returns [True] unless the process exited with code 0. *)
Lemma hook_true_iff hook params st :
  fst (_claude_flow_hook hook params st) = true
  <-> exists out err w1,
        subprocess_run (cmd_parts hook params) (world st) = (Completed 0 out err, w1).
Proof.
  unfold _claude_flow_hook.
  destruct (subprocess_run _ _) as [[rc out err|msg] w1].
  - destruct (datetime_now w1) as [now w2].
    destruct (Z.eqb_spec rc 0) as [->|Hne]; simpl.
    + split; [eauto | done].
    + split; [done | intros (? & ? & ? & [= ? _ _ _]); done].
  - simpl. split; [done | intros (? & ? & ? & [=])].
Qed.

(** C5 (the code at the failing input): when launching or waiting for the
    hook process raises (timeout, launch error), [_claude_flow_hook]
    returns [False] and leaves [coordination_log] exactly as it was: no
    entry is appended for this attempt. *)
Theorem hook_exception_not_logged hook params st msg w1 :
  subprocess_run (cmd_parts hook params) (world st) = (RunRaised msg, w1) ->
  _claude_flow_hook hook params st = (false, set_world w1 st)
  /\ coordination_log (self (snd (_claude_flow_hook hook params st)))
     = coordination_log (self st).
Proof.
  intros Hrun. unfold _claude_flow_hook. rewrite Hrun. done.
Qed.

(** ** Session Orchestrator *)

Lemma load_memory_db k st st' :
  memory_db st = memory_db st' ->
  _load_coordination_memory k st = _load_coordination_memory k st'.
Proof. unfold _load_coordination_memory. by intros ->. Qed.

Lemma store_frame k v st :
  self (snd (_store_coordination_memory k v st)) = self st.
Proof.
  unfold _store_coordination_memory. destruct (json_dumps v); [|done].
  by destruct (datetime_now (world st)).
Qed.

(** The session in terms of its steps: the context that is merged, the
    record that is stored, and the record that is returned. *)
Lemma session_spec issue ctx st sw :
  swarm (self st) = Some sw ->
  exists session_id ts results sw' w_pre w_post stA,
    let previous := _load_coordination_memory "swarms/debugging/context" st in
    let context :=
      if py_truthy previous
      then Some (dict_set (KStr "previous_findings") previous (default [] ctx))
      else ctx in
    let data := session_record session_id issue ts results context in
    let stB :=
      snd (_store_coordination_memory ("swarms/debugging/sessions/" +:+ session_id)
             (PDict data) stA) in
    coordinate_debugging issue sw w_pre = (results, sw', w_post)
    /\ memory_db stA = memory_db st
    /\ match generate_coordinated_solution results sw' (world stB) with
       | (Raised msg, w4) =>
           coordinate_debugging_session issue ctx st = (Raised msg, set_world w4 stB)
       | (Returned solution, w4) =>
           exists st',
             coordinate_debugging_session issue ctx st
             = (Returned (PDict (dict_set (KStr "coordinated_solution") solution data)),
                st')
             /\ memory_db st' = memory_db stB
       end.
Proof.
  intros Hsw. unfold coordinate_debugging_session. rewrite Hsw.
  destruct (datetime_now (world st)) as [now0 w0].
  match goal with |- context [_claude_flow_hook ?h ?p ?s] =>
    pose proof (hook_frame h p s) as [Hdb1 _];
    destruct (_claude_flow_hook h p s) as [ok1 st1] end.
  simpl in Hdb1.
  destruct (coordinate_debugging issue sw (world st1)) as [[results sw'] w2] eqn:Hcd.
  simpl. destruct (datetime_now w2) as [now1 w3].
  rewrite (load_memory_db "swarms/debugging/context" st1 st Hdb1).
  set (stA := set_world w3 (set_swarm (Some sw') (set_world w2 st1))).
  exists ("debug-session-" +:+ pretty (unix_seconds now0)), (isoformat now1),
    results, sw', (world st1), w2, stA.
  cbv zeta. split; [exact Hcd|]. split; [exact Hdb1|].
  match goal with |- context [_store_coordination_memory ?k ?v ?s] =>
    destruct (_store_coordination_memory k v s) as [ok3 st3] end.
  simpl. destruct (generate_coordinated_solution results sw' (world st3))
    as [[solution|msg] w4]; [|done].
  match goal with |- context [_claude_flow_hook ?h ?p ?s] =>
    pose proof (hook_frame h p s) as [Hdb5 _];
    destruct (_claude_flow_hook h p s) as [ok5 st5] end.
  match goal with |- context [_claude_flow_hook ?h ?p ?s] =>
    pose proof (hook_frame h p s) as [Hdb6 _];
    destruct (_claude_flow_hook h p s) as [ok6 st6] end.
  simpl in *. eexists. split; [reflexivity|]. by rewrite Hdb6, Hdb5.
Qed.
End coordinator_facts.

Lemma dict_get_set_is_Some {K V : Type} `{EqDecision K} (k k' : K) (v : V)
    (d : list (K * V)) :
  is_Some (dict_get k d) -> is_Some (dict_get k (dict_set k' v d)).
Proof.
  intros Hk. destruct (decide (k' = k)) as [->|Hne].
  - rewrite dict_get_set_eq. eauto.
  - by rewrite dict_get_set_ne.
Qed.

(** Every call leaves an entry under its worker's name. *)
Lemma record_onto_is_Some (calls : list Call) (c : Call) :
  c ∈ calls -> is_Some (dict_get (KStr (call_name c)) (record_onto [] calls)).
Proof.
  induction calls as [|c' calls IH] using rev_ind; intros Hin.
  - by apply elem_of_nil in Hin.
  - rewrite record_onto_snoc. apply elem_of_app in Hin as [Hin|Hin].
    + by apply dict_get_set_is_Some, IH.
    + apply list_elem_of_singleton in Hin as ->. rewrite dict_get_set_eq. eauto.
Qed.

Lemma session_key_distinct sid :
  "swarms/debugging/sessions/" +:+ sid ≠ "swarms/debugging/sessions".
Proof. intros Heq. cbn in Heq. discriminate Heq. Qed.

Lemma session_record_with_solution sid issue ts results context solution :
  dict_set (KStr "coordinated_solution") solution
    (session_record sid issue ts results context)
  = (session_record sid issue ts results context
     ++ [(KStr "coordinated_solution", solution)])%list.
Proof. reflexivity. Qed.

Section session_facts.
Context {World : Type} `{External World}.
Implicit Types (st : State World).

(** C1 (the code at the failing input): for a session on an initialized
    orchestrator that returns a record [sd] which is JSON serializable as
    a whole, [sd] carries a [coordinated_solution], but the record found
    afterwards in the store under [swarms/debugging/sessions/<session_id>]
    has the five fields written before the synthesis and no
    [coordinated_solution]. *)
Theorem persisted_session_lacks_solution issue ctx st sw sd st' :
  swarm (self st) = Some sw ->
  coordinate_debugging_session issue ctx st = (Returned (PDict sd), st') ->
  is_Some (json_dumps (PDict sd)) ->
  exists session_id solution d,
    dict_get (KStr "session_id") sd = Some (PStr session_id)
    /\ dict_get (KStr "coordinated_solution") sd = Some solution
    /\ _load_coordination_memory ("swarms/debugging/sessions/" +:+ session_id) st'
       = PDict d
    /\ map fst d = [KStr "session_id"; KStr "issue"; KStr "timestamp";
                    KStr "agent_results"; KStr "context"]
    /\ dict_get (KStr "coordinated_solution") d = None.
Proof.
  intros Hsw Hrun Hser.
  destruct (session_spec issue ctx st sw Hsw)
    as (sid & ts & results & sw' & wpre & wpost & stA & _ & _ & Hgen).
  cbv zeta in Hgen.
  set (context := if py_truthy _ then _ else _) in Hgen.
  destruct (generate_coordinated_solution _ _ _) as [[solution|msg] w4];
    [|congruence].
  destruct Hgen as (st2 & Hret & Hdb). rewrite Hret in Hrun.
  injection Hrun as <- <-.
  apply (json_dumps_prefix (session_record sid issue ts results context)
           [(KStr "coordinated_solution", solution)]) in Hser as [j Hj].
  destruct (json_dumps_loads_keys _ j Hj) as (d & Hd & Hkeys).
  { unfold session_record. repeat constructor; eexists; reflexivity. }
  { apply (bool_decide_unpack _). vm_compute. exact I. }
  exists sid, solution, d.
  split; [reflexivity|]. split; [reflexivity|].
  rewrite (load_memory_db _ st2 _ Hdb), (load_after_store _ _ j _ Hj), Hd.
  split; [reflexivity|]. split; [exact Hkeys|].
  apply dict_get_None. rewrite Hkeys. simpl. intros Hin.
  repeat (apply elem_of_cons in Hin as [Hin|Hin]; [discriminate|]).
  by apply elem_of_nil in Hin.
Qed.

(** C6 (the code at the failing input): on an initialized orchestrator
    with at least one worker, whatever the hook process does (in
    particular when every invocation fails), if the first worker's [run]
    raises [msg] on the synthesis request, the session returns no record:
    the exception [msg] reaches the caller. *)
Theorem synthesis_exception_escapes_session issue ctx st sw a msg :
  swarm (self st) = Some sw ->
  head (agents sw) = Some a ->
  (forall debug_results w,
     exists w', agent_run a (SolutionPrompt debug_results) w = (Raised msg, w')) ->
  exists st', coordinate_debugging_session issue ctx st = (Raised msg, st').
Proof.
  intros Hsw Hhead Hsynth.
  destruct (session_spec issue ctx st sw Hsw)
    as (sid & ts & results & sw' & wpre & wpost & stA & Hcd & _ & Hgen).
  cbv zeta in Hgen.
  destruct (coordinate_debugging_spec issue sw wpre)
    as (r & dm & w0 & calls & _ & Hcd' & _).
  rewrite Hcd' in Hcd. injection Hcd as Hr Hsw' Hw. subst r.
  destruct (generate_coordinated_solution _ _ _) as [[solution|msg'] w4] eqn:Hsol;
    unfold generate_coordinated_solution in Hsol; rewrite <- Hsw' in Hsol;
    simpl in Hsol; destruct (agents sw) as [|a' rest]; try discriminate;
    injection Hhead as ->;
    match type of Hsol with agent_run a (SolutionPrompt ?r) ?w = _ =>
      destruct (Hsynth r w) as (w' & Hraise) end.
  - congruence.
  - assert (msg' = msg) as -> by congruence. eauto.
Qed.

(** X19: hook failures are not fatal. On an initialized orchestrator,
    whatever the hook process does (in particular when every invocation
    fails), a session whose synthesis request returns gives back a
    record that holds the issue, a result for every worker under
    [agent_results], and the [coordinated_solution]. *)
Theorem hook_failure_not_fatal issue ctx st sw :
  swarm (self st) = Some sw ->
  (forall a debug_results w,
     head (agents sw) = Some a ->
     exists solution w',
       agent_run a (SolutionPrompt debug_results) w = (Returned solution, w')) ->
  exists sd st' results solution,
    coordinate_debugging_session issue ctx st = (Returned (PDict sd), st')
    /\ dict_get (KStr "issue") sd = Some (PStr issue)
    /\ dict_get (KStr "agent_results") sd = Some (PDict results)
    /\ (forall a, a ∈ agents sw ->
          is_Some (dict_get (KStr (agent_name a)) results))
    /\ dict_get (KStr "coordinated_solution") sd = Some solution.
Proof.
  intros Hsw Hsynth.
  destruct (session_spec issue ctx st sw Hsw)
    as (sid & ts & results & sw' & wpre & wpost & stA & Hcd & _ & Hgen).
  cbv zeta in Hgen.
  destruct (coordinate_debugging_spec issue sw wpre)
    as (r & dm & w0 & calls & _ & Hcd' & Hmap & Hres & _).
  rewrite Hcd' in Hcd. injection Hcd as Hr Hsw' Hw. subst r.
  destruct (generate_coordinated_solution _ _ _) as [[solution|msg] w4] eqn:Hsol.
  - destruct Hgen as (st' & Hret & _).
    eexists _, st', results, solution.
    split; [exact Hret|]. rewrite session_record_with_solution.
    split; [reflexivity|]. split; [reflexivity|]. split; [|reflexivity].
    intros a Ha. rewrite <- Hmap in Ha.
    apply list_elem_of_fmap in Ha as (c & -> & Hc).
    rewrite Hres. by apply record_onto_is_Some.
  - exfalso. unfold generate_coordinated_solution in Hsol.
    rewrite <- Hsw' in Hsol. simpl in Hsol.
    destruct (agents sw) as [|a rest] eqn:Hagents; [done|].
    match type of Hsol with agent_run a ?p ?w = _ =>
      destruct (Hsynth a results w eq_refl) as (solution & w' & Hok) end.
    congruence.
Qed.

(** C9 (amended): let [p] be what the store holds under
    [swarms/debugging/context] and [c] the caller's context ([{}] when
    none is given). If [p] is truthy, the session's context is [c] with
    [previous_findings] set to [p]: that key maps to [p] whatever [c] had
    there, and every other key of [c] is kept. If [p] is falsy (absent,
    null, [{}], [[]], [0], the empty string, [False]), the session's
    context is [c] itself. *)
Theorem previous_findings_merge issue ctx st sw sd st' :
  swarm (self st) = Some sw ->
  coordinate_debugging_session issue ctx st = (Returned (PDict sd), st') ->
  let p := _load_coordination_memory "swarms/debugging/context" st in
  let c := default [] ctx in
  exists session_context,
    dict_get (KStr "context") sd = Some (PDict session_context)
    /\ if py_truthy p
       then session_context = dict_set (KStr "previous_findings") p c
            /\ dict_get (KStr "previous_findings") session_context = Some p
            /\ (forall k, k ≠ KStr "previous_findings" ->
                  dict_get k session_context = dict_get k c)
       else session_context = c.
Proof.
  intros Hsw Hrun p c.
  destruct (session_spec issue ctx st sw Hsw)
    as (sid & ts & results & sw' & wpre & wpost & stA & _ & _ & Hgen).
  cbv zeta in Hgen. fold p in Hgen. fold c in Hgen.
  destruct (generate_coordinated_solution _ _ _) as [[solution|msg] w4];
    [|congruence].
  destruct Hgen as (st2 & Hret & _). rewrite Hret in Hrun.
  injection Hrun as <- <-.
  eexists. split; [reflexivity|].
  destruct (py_truthy p); simpl; [|done].
  split; [done|]. split; [apply dict_get_set_eq|].
  intros k Hk. by apply dict_get_set_ne.
Qed.

(** ** Status Reporter *)

(** [debugging_sessions] is read off the one record stored under the
    exact key [swarms/debugging/sessions]. *)
Lemma status_reads_exact_key st :
  debugging_sessions (get_coordination_status st)
  = match _load_coordination_memory "swarms/debugging/sessions" st with
    | PDict d => length d
    | _ => 0
    end.
Proof.
  unfold get_coordination_status. simpl.
  destruct (_load_coordination_memory "swarms/debugging/sessions" st)
    as [| b | z | f | s | l | l | d | t]; simpl; try done.
  - by destruct b.
  - by destruct (z =? 0)%Z.
  - by destruct (f =? 0)%float.
  - by destruct (String.eqb s "").
  - by destruct l.
  - by destruct l.
  - by destruct d.
Qed.

(** A session writes under its own key, so it never changes the count. *)
Lemma session_keeps_debugging_sessions issue ctx st :
  debugging_sessions (get_coordination_status (snd (coordinate_debugging_session issue ctx st)))
  = debugging_sessions (get_coordination_status st).
Proof.
  rewrite !status_reads_exact_key.
  destruct (swarm (self st)) as [sw|] eqn:Hsw.
  - destruct (session_spec issue ctx st sw Hsw)
      as (sid & ts & results & sw' & wpre & wpost & stA & _ & HdbA & Hgen).
    cbv zeta in Hgen.
    assert (forall stB : State World,
      memory_db stB
      = memory_db (snd (_store_coordination_memory
                          ("swarms/debugging/sessions/" +:+ sid)
                          (PDict (session_record sid issue ts results
                            (if py_truthy (_load_coordination_memory
                                             "swarms/debugging/context" st)
                             then Some (dict_set (KStr "previous_findings")
                                          (_load_coordination_memory
                                             "swarms/debugging/context" st)
                                          (default [] ctx))
                             else ctx))) stA)) ->
      _load_coordination_memory "swarms/debugging/sessions" stB
      = _load_coordination_memory "swarms/debugging/sessions" st) as Hkeep.
    { intros stB HdbB. rewrite (load_memory_db _ _ _ HdbB).
      rewrite load_after_store_other by apply session_key_distinct.
      by apply load_memory_db. }
    destruct (generate_coordinated_solution _ _ _) as [[solution|msg] w4].
    + destruct Hgen as (st2 & -> & Hdb). cbn [snd]. by rewrite (Hkeep st2 Hdb).
    + rewrite Hgen. cbn [snd]. by rewrite (Hkeep (set_world w4 _) eq_refl).
  - unfold coordinate_debugging_session. by rewrite Hsw.
Qed.
End session_facts.

(** ** Worked scenarios *)

Import Scenario.

(** Slicing counts characters: the two bytes of an accented letter stay
    together, and a short string is taken whole. *)
Example str_take_counts_characters :
  str_take 3 "héllo" = "hél"
  /\ String.length "héllo" = 6
  /\ str_take 100 "tab bar" = "tab bar"
  /\ str_take 0 "tab bar" = "".
Proof. vm_compute. repeat split; reflexivity. Qed.

(** Numbers are compared by value across [bool], [int] and [float]. *)
Example numbers_compare_by_value :
  py_eq (PBool true) (PInt 1) = true
  /\ py_eq (PInt 1) (PFloat 1) = true
  /\ py_eq (PFloat 0.5) (PInt 0) = false
  /\ py_eq (PInt (2 ^ 53 + 1)) (PFloat 9007199254740992) = false
  /\ py_eq (PInt (2 ^ 53)) (PFloat 9007199254740992) = true
  /\ py_eq (PFloat nan) (PFloat nan) = false
  /\ py_eq (PFloat 0) (PFloat (-0)) = true
  /\ py_truthy (PFloat (-0)) = false
  /\ py_truthy (PFloat nan) = true.
Proof. vm_compute. repeat split; reflexivity. Qed.

(** The five workers of the fixed registry have distinct names. *)
Lemma registry_names_distinct :
  NoDup (map agent_name (agents create_terminal_debug_swarm)).
Proof. apply (bool_decide_unpack _). vm_compute. exact I. Qed.

(** C3 at workers [A; B; C]: the prompt of [B] (position 1). *)
Lemma visibility_ordering_witness :
  let run := @coordinate_debugging_calls Z all_well "tab bar" abc 0%Z in
  let b := {| call_agent := worker "B";
              call_prompt := ContextPrompt "tab bar" [(KStr "A", PStr "analysis by A")];
              call_outcome := Returned (PStr "analysis by B") |} in
  @coordinate_debugging Z all_well "tab bar" abc 0%Z = fst run
  /\ @calls_made Z all_well 0%Z (snd run) (snd (fst run))
  /\ agents abc !! 1 = Some (call_agent b)
  /\ exists findings,
       call_prompt b = ContextPrompt "tab bar" findings
       /\ (forall name response,
             dict_get (KStr name) findings = Some response
             <-> committed_by (take 1 (snd run)) name response)
       /\ (forall k ck, 1 <= k -> snd run !! k = Some ck ->
             dict_get (KStr (call_name ck)) findings = None).
Proof.
  intros run b.
  apply (@visibility_ordering Z all_well "tab bar" abc 0%Z
           (fst (fst (fst run))) (snd (fst (fst run))) (snd (fst run)) (snd run) 1 b).
  - apply (bool_decide_unpack _). vm_compute. exact I.
  - vm_compute. reflexivity.
  - vm_compute. reflexivity.
Defined.

(** C3 as stated fails when two workers share a name. With workers
    [A; A; B], each answering with the number of findings it was shown,
    the first [A] commits [0] and the second [A] commits [1] under the
    same name: the prompt passed to [B] holds the second result only,
    although both calls before it committed one. *)
Lemma twin_finding_missing_from_prompt :
  let E := scripted run_counts_findings proc_ok in
  let run := @coordinate_debugging_calls Z E "tab bar" twins 0%Z in
  @coordinate_debugging Z E "tab bar" twins 0%Z = fst run
  /\ @calls_made Z E 0%Z (snd run) (snd (fst run))
  /\ map call_agent (snd run) = [worker "A"; worker "A"; worker "B"]
  /\ map call_outcome (snd run)
     = [Returned (PInt 0); Returned (PInt 1); Returned (PInt 1)]
  /\ map call_prompt (snd run)
     = [ContextPrompt "tab bar" [];
        ContextPrompt "tab bar" [(KStr "A", PInt 0)];
        ContextPrompt "tab bar" [(KStr "A", PInt 1)]]
  /\ committed_by (take 2 (snd run)) "A" (PInt 0)
  /\ dict_get (KStr "A") [(KStr "A", PInt 1)] ≠ Some (PInt 0).
Proof.
  intros E run. split; [vm_compute; reflexivity|].
  split; [vm_compute; eauto 10|].
  split; [vm_compute; reflexivity|].
  split; [vm_compute; reflexivity|].
  split; [vm_compute; reflexivity|].
  split; [|vm_compute; discriminate].
  exists 0, {| call_agent := worker "A"; call_prompt := ContextPrompt "tab bar" [];
               call_outcome := Returned (PInt 0) |}.
  split; [vm_compute; reflexivity|]. split; reflexivity.
Qed.

(** What [B] and [C] see: [B] has the result of [A] and not that of [C];
    [C] has the results of [A] and [B]. *)
Example abc_prompts :
  map call_prompt (snd (@coordinate_debugging_calls Z all_well "tab bar" abc 0%Z))
  = [ContextPrompt "tab bar" [];
     ContextPrompt "tab bar" [(KStr "A", PStr "analysis by A")];
     ContextPrompt "tab bar" [(KStr "A", PStr "analysis by A");
                              (KStr "B", PStr "analysis by B")]].
Proof. vm_compute. reflexivity. Qed.

(** C4 at workers [A; B; C] with [B] raising. *)
Lemma worker_isolation_witness :
  let E := scripted (run_one_raises "B") proc_ok in
  let run := @coordinate_debugging_calls Z E "tab bar" abc 0%Z in
  let results := fst (fst (fst run)) in
  let b := {| call_agent := worker "B";
              call_prompt := ContextPrompt "tab bar" [(KStr "A", PStr "analysis by A")];
              call_outcome := Raised "model unavailable" |} in
  @coordinate_debugging Z E "tab bar" abc 0%Z = fst run
  /\ @calls_made Z E 0%Z (snd run) (snd (fst run))
  /\ map call_agent (snd run) = agents abc
  /\ dict_get (KStr (call_name b)) results = Some (PStr ("Error: " +:+ "model unavailable"))
  /\ (forall k ck, k ≠ 1 -> snd run !! k = Some ck ->
        dict_get (KStr (call_name ck)) results = Some (recorded (call_outcome ck)))
  /\ map fst results = map (fun a => KStr (agent_name a)) (agents abc).
Proof.
  intros E run results b.
  apply (@worker_isolation Z E "tab bar" abc 0%Z
           results (snd (fst (fst run))) (snd (fst run)) (snd run) 1 b
           "model unavailable").
  - apply (bool_decide_unpack _). vm_compute. exact I.
  - vm_compute. reflexivity.
  - vm_compute. reflexivity.
  - reflexivity.
Defined.

(** C4 as stated fails when two workers share a name. With workers
    [A; A; B] and the first call raising, the second [A] answers and its
    entry replaces the error: the result mapping holds no ["Error: ..."]
    string under the name of the worker that raised. *)
Lemma twin_error_overwritten :
  let run := @coordinate_debugging_calls Z first_call_raises "tab bar" twins 0%Z in
  let results := fst (fst (fst run)) in
  @coordinate_debugging Z first_call_raises "tab bar" twins 0%Z = fst run
  /\ @calls_made Z first_call_raises 0%Z (snd run) (snd (fst run))
  /\ map call_agent (snd run) = [worker "A"; worker "A"; worker "B"]
  /\ map call_outcome (snd run)
     = [Raised "model unavailable"; Returned (PStr "analysis by A");
        Returned (PStr "analysis by B")]
  /\ results = [(KStr "A", PStr "analysis by A"); (KStr "B", PStr "analysis by B")]
  /\ dict_get (KStr "A") results ≠ Some (PStr ("Error: " +:+ "model unavailable")).
Proof.
  intros run results. split; [vm_compute; reflexivity|].
  split; [vm_compute; eauto 10|].
  split; [vm_compute; reflexivity|].
  split; [vm_compute; reflexivity|].
  split; [vm_compute; reflexivity | vm_compute; discriminate].
Qed.

Example abc_results_when_b_raises :
  fst (fst (@coordinate_debugging Z (scripted (run_one_raises "B") proc_ok)
              "tab bar" abc 0%Z))
  = [(KStr "A", PStr "analysis by A");
     (KStr "B", PStr "Error: model unavailable");
     (KStr "C", PStr "analysis by C")].
Proof. vm_compute. reflexivity. Qed.

(** C10 on two dispatches in a row: the second starts from nothing. *)
Example second_dispatch_starts_empty :
  let first := @coordinate_debugging Z all_well "tab bar" abc 0%Z in
  let sw1 := snd (fst first) in
  agent_findings (debug_memory sw1)
  = Some [(KStr "A", PStr "analysis by A"); (KStr "B", PStr "analysis by B");
          (KStr "C", PStr "analysis by C")]
  /\ map call_prompt
       (snd (@coordinate_debugging_calls Z all_well "scrolling" sw1 (snd first)))
     = [ContextPrompt "scrolling" [];
        ContextPrompt "scrolling" [(KStr "A", PStr "analysis by A")];
        ContextPrompt "scrolling" [(KStr "A", PStr "analysis by A");
                                   (KStr "B", PStr "analysis by B")]].
Proof. vm_compute. split; reflexivity. Qed.

(** C5 at a hook whose process times out. *)
Lemma hook_exception_not_logged_witness :
  let st := initialized hooks_time_out in
  @_claude_flow_hook Z hooks_time_out "pre-task" [("task-id", ArgStr "t1")] st
  = (false, set_world (world st) st)
  /\ coordination_log
       (self (snd (@_claude_flow_hook Z hooks_time_out "pre-task"
                     [("task-id", ArgStr "t1")] st)))
     = coordination_log (self st).
Proof.
  intros st.
  apply (@hook_exception_not_logged Z hooks_time_out "pre-task"
           [("task-id", ArgStr "t1")] st "Command timed out after 30 seconds"
           (world st)).
  reflexivity.
Defined.

(** With timeouts the log stays empty through initialization and a whole
    session (four attempts); with exit code 1 it has one failure entry
    per attempt. *)
Example log_entries_by_failure_kind :
  coordination_log (self (snd (first_session hooks_time_out))) = []
  /\ map log_success (coordination_log (self (snd (first_session hooks_exit_1))))
     = [false; false; false; false].
Proof. vm_compute. split; reflexivity. Qed.

(** C7 at a nested JSON-native value. *)
Lemma store_then_load_json_native_witness :
  let v := PDict [(KStr "root_cause", PStr "viewport css");
                  (KStr "confidence", PFloat 0.75);
                  (KStr "files", PList [PStr "TabBar.tsx"; PInt 2; PNone; PBool true])] in
  let put := @_store_coordination_memory Z all_well "swarms/metadata" v fresh in
  @_load_coordination_memory Z all_well "swarms/metadata" (snd put) = v
  /\ (nan_free v = true ->
      py_eq v (@_load_coordination_memory Z all_well "swarms/metadata" (snd put))
      = true).
Proof.
  intros v put.
  apply (@store_then_load_json_native Z all_well "swarms/metadata" v fresh).
  - vm_compute. reflexivity.
  - vm_compute. reflexivity.
Defined.

(** C7 as stated fails on each kind of value that the amendment
    excludes; in all three cases the value is JSON serializable and the
    write succeeds. The tuple [(1, 2)] is read back as the list
    [[1, 2]], which is not equal to it; the dictionary [{1: "a"}] is read
    back as [{"1": "a"}]; and NaN is read back as NaN, which is not
    equal to itself. *)
Lemma tuple_read_back_as_list :
  let get := @_load_coordination_memory Z all_well "k" in
  let put := fun v => @_store_coordination_memory Z all_well "k" v fresh in
  let t := PTuple [PInt 1; PInt 2] in
  let d := PDict [(KInt 1, PStr "a")] in
  let n := PFloat nan in
  (fst (put t) = true
   /\ get (snd (put t)) = PList [PInt 1; PInt 2]
   /\ py_eq t (get (snd (put t))) = false)
  /\ (fst (put d) = true
      /\ get (snd (put d)) = PDict [(KStr "1", PStr "a")]
      /\ py_eq d (get (snd (put d))) = false)
  /\ (fst (put n) = true
      /\ get (snd (put n)) = n
      /\ py_eq n (get (snd (put n))) = false).
Proof. vm_compute. repeat split; reflexivity. Qed.

(** Past the limits of the interpreter a write fails and the key keeps
    what it had: an integer of 4301 digits where the limit is 4300, and
    five nested lists where there is room for four. *)
Example writes_past_the_limits_fail :
  let big := PInt (10 ^ 4300) in
  let st1 := snd (@_store_coordination_memory Z all_well "k" (PInt 7) fresh) in
  let st2 := snd (@_store_coordination_memory Z shallow "k" (PInt 7) fresh) in
  json_native big = true
  /\ fst (@_store_coordination_memory Z all_well "k" (PInt (10 ^ 4300 - 1)) st1) = true
  /\ fst (@_store_coordination_memory Z all_well "k" big st1) = false
  /\ @_load_coordination_memory Z all_well "k"
       (snd (@_store_coordination_memory Z all_well "k" big st1)) = PInt 7
  /\ fst (@_store_coordination_memory Z shallow "k" (nested 3) st2) = true
  /\ fst (@_store_coordination_memory Z shallow "k" (nested 4) st2) = false
  /\ @_load_coordination_memory Z shallow "k"
       (snd (@_store_coordination_memory Z shallow "k" (nested 4) st2)) = PInt 7.
Proof. vm_compute. repeat split; reflexivity. Qed.

(** C8 at two JSON-native values. *)
Lemma overwrite_last_write_wins_witness :
  let v1 := PDict [(KStr "agent_count", PInt 5)] in
  let v2 := PDict [(KStr "agent_count", PInt 3); (KStr "note", PStr "rebuilt")] in
  let st1 := snd (@_store_coordination_memory Z all_well "swarms/metadata" v1 fresh) in
  let st2 := snd (@_store_coordination_memory Z all_well "swarms/metadata" v2 st1) in
  @_load_coordination_memory Z all_well "swarms/metadata" st2 = v2
  /\ (v1 ≠ v2 -> @_load_coordination_memory Z all_well "swarms/metadata" st2 ≠ v1)
  /\ (forall k', k' ≠ "swarms/metadata" ->
        @_load_coordination_memory Z all_well k' st2
        = @_load_coordination_memory Z all_well k' st1).
Proof.
  intros v1 v2.
  apply (@overwrite_last_write_wins Z all_well "swarms/metadata" v1 v2 fresh).
  - vm_compute. reflexivity.
  - vm_compute. reflexivity.
Defined.

(** C8 as stated fails when the second value is a tuple: after
    [put(k, [1, 2]); put(k, (1, 2))] both writes have succeeded and
    [get(k)] returns [[1, 2]], which equals the first value and not the
    second. *)
Lemma overwrite_by_tuple_reads_as_first_value :
  let v1 := PList [PInt 1; PInt 2] in
  let v2 := PTuple [PInt 1; PInt 2] in
  let put1 := @_store_coordination_memory Z all_well "k" v1 fresh in
  let put2 := @_store_coordination_memory Z all_well "k" v2 (snd put1) in
  fst put1 = true /\ fst put2 = true
  /\ @_load_coordination_memory Z all_well "k" (snd put2) = v1
  /\ py_eq v2 (@_load_coordination_memory Z all_well "k" (snd put2)) = false.
Proof. vm_compute. repeat split; reflexivity. Qed.

(** C1 at the first session after initialization. *)
Lemma persisted_session_lacks_solution_witness :
  exists session_id solution d,
    dict_get (KStr "session_id") (returned_record (first_session all_well))
    = Some (PStr session_id)
    /\ dict_get (KStr "coordinated_solution") (returned_record (first_session all_well))
       = Some solution
    /\ @_load_coordination_memory Z all_well ("swarms/debugging/sessions/" +:+ session_id)
         (snd (first_session all_well)) = PDict d
    /\ map fst d = [KStr "session_id"; KStr "issue"; KStr "timestamp";
                    KStr "agent_results"; KStr "context"]
    /\ dict_get (KStr "coordinated_solution") d = None.
Proof.
  apply (@persisted_session_lacks_solution Z all_well "mobile tab bar broken" None
           (initialized all_well) create_terminal_debug_swarm
           (returned_record (first_session all_well))
           (snd (first_session all_well))).
  - reflexivity.
  - vm_compute. reflexivity.
  - vm_compute. eexists. reflexivity.
Defined.

(** The returned record and the stored one, side by side. *)
Example returned_and_persisted_keys :
  map fst (returned_record (first_session all_well))
  = [KStr "session_id"; KStr "issue"; KStr "timestamp"; KStr "agent_results";
     KStr "context"; KStr "coordinated_solution"]
  /\ match @_load_coordination_memory Z all_well
             "swarms/debugging/sessions/debug-session-1700000003"
             (snd (first_session all_well)) with
     | PDict d => map fst d
     | _ => []
     end
     = [KStr "session_id"; KStr "issue"; KStr "timestamp"; KStr "agent_results";
        KStr "context"].
Proof. vm_compute. split; reflexivity. Qed.

(** C2 (the code at the failing input): after initialization (five
    workers) and two sessions, both persisted under their own keys, the
    status reports five agents and zero debugging sessions. *)
Theorem status_after_two_sessions :
  let st := snd (second_session all_well) in
  @_load_coordination_memory Z all_well "swarms/debugging/sessions/debug-session-1700000003" st
    ≠ PNone
  /\ @_load_coordination_memory Z all_well "swarms/debugging/sessions/debug-session-1700000009" st
       ≠ PNone
  /\ agent_count (@get_coordination_status Z all_well st) = 5
  /\ debugging_sessions (@get_coordination_status Z all_well st) = 0.
Proof. vm_compute. repeat split; discriminate. Qed.

(** C6 at the failing input: every hook invocation exits with code 1,
    the orchestrator is initialized, and the first worker raises on the
    synthesis request. *)
Lemma synthesis_exception_escapes_session_witness :
  (forall cmd w,
     @subprocess_run Z hooks_exit_1_synthesis_raises cmd w
     = (Completed 1 "" "hook failed", w))
  /\ exists st',
       @coordinate_debugging_session Z hooks_exit_1_synthesis_raises
         "mobile tab bar broken" None (initialized hooks_exit_1_synthesis_raises)
       = (Raised "model unavailable", st').
Proof.
  split; [reflexivity|].
  apply (@synthesis_exception_escapes_session Z hooks_exit_1_synthesis_raises
           "mobile tab bar broken" None (initialized hooks_exit_1_synthesis_raises)
           create_terminal_debug_swarm frontend_agent "model unavailable").
  - reflexivity.
  - reflexivity.
  - intros debug_results w. exists w. reflexivity.
Defined.

(** The same input with the hooks succeeding, and the worker calls of
    the dispatch loop raising instead: the session raises in the first
    case and returns a record holding five ["Error: ..."] results in the
    second. The loop guards [run], the synthesis does not. *)
Example guarded_loop_unguarded_synthesis :
  fst (@coordinate_debugging_session Z (scripted run_synthesis_raises proc_ok)
         "mobile tab bar broken" None
         (initialized (scripted run_synthesis_raises proc_ok)))
  = Raised "model unavailable"
  /\ dict_get (KStr "agent_results")
       (returned_record
          (@coordinate_debugging_session Z (scripted run_dispatch_raises proc_ok)
             "mobile tab bar broken" None
             (initialized (scripted run_dispatch_raises proc_ok))))
     = Some (PDict [(KStr "FrontendDebugger", PStr "Error: model unavailable");
                    (KStr "BackendDebugger", PStr "Error: model unavailable");
                    (KStr "SystemIntegrator", PStr "Error: model unavailable");
                    (KStr "TestCoordinator", PStr "Error: model unavailable");
                    (KStr "PerformanceAnalyzer", PStr "Error: model unavailable")]).
Proof. vm_compute. split; reflexivity. Qed.

(** X19 with every hook exiting with code 1. *)
Lemma hook_failure_not_fatal_witness :
  exists sd st' results solution,
    @coordinate_debugging_session Z hooks_exit_1 "mobile tab bar broken" None
      (initialized hooks_exit_1) = (Returned (PDict sd), st')
    /\ dict_get (KStr "issue") sd = Some (PStr "mobile tab bar broken")
    /\ dict_get (KStr "agent_results") sd = Some (PDict results)
    /\ (forall a, a ∈ agents create_terminal_debug_swarm ->
          is_Some (dict_get (KStr (agent_name a)) results))
    /\ dict_get (KStr "coordinated_solution") sd = Some solution.
Proof.
  apply (@hook_failure_not_fatal Z hooks_exit_1 "mobile tab bar broken" None
           (initialized hooks_exit_1) create_terminal_debug_swarm).
  - reflexivity.
  - intros a debug_results w _. exists (PStr "combined fix"), w. reflexivity.
Defined.

(** C9 with a stored previous context and a caller context that already
    has a [previous_findings] key. *)
Lemma previous_findings_merge_witness :
  let p := PDict [(KStr "root_cause", PStr "viewport css")] in
  let ctx := [(KStr "device", PStr "phone"); (KStr "previous_findings", PInt 0);
              (KStr "os", PStr "android")] in
  let st := with_previous_context p in
  let run := @coordinate_debugging_session Z all_well "tab bar" (Some ctx) st in
  exists session_context,
    dict_get (KStr "context") (returned_record run) = Some (PDict session_context)
    /\ if py_truthy (@_load_coordination_memory Z all_well "swarms/debugging/context" st)
       then session_context
            = dict_set (KStr "previous_findings")
                (@_load_coordination_memory Z all_well "swarms/debugging/context" st) ctx
            /\ dict_get (KStr "previous_findings") session_context
               = Some (@_load_coordination_memory Z all_well "swarms/debugging/context" st)
            /\ (forall k, k ≠ KStr "previous_findings" ->
                  dict_get k session_context = dict_get k ctx)
       else session_context = ctx.
Proof.
  intros p ctx st run.
  apply (@previous_findings_merge Z all_well "tab bar" (Some ctx) st
           create_terminal_debug_swarm (returned_record run) (snd run)).
  - reflexivity.
  - vm_compute. reflexivity.
Defined.

Example merged_context_value :
  dict_get (KStr "context")
    (returned_record
       (@coordinate_debugging_session Z all_well "tab bar"
          (Some [(KStr "device", PStr "phone"); (KStr "previous_findings", PInt 0)])
          (with_previous_context (PDict [(KStr "root_cause", PStr "viewport css")]))))
  = Some (PDict [(KStr "device", PStr "phone");
                 (KStr "previous_findings",
                  PDict [(KStr "root_cause", PStr "viewport css")])]).
Proof. vm_compute. reflexivity. Qed.

(** C9 as stated fails when the stored value is falsy: the store holds
    the empty dictionary under [swarms/debugging/context], and the
    session's context is the caller's, with no [previous_findings]. *)
Lemma empty_previous_context_not_merged :
  let st := with_previous_context (PDict []) in
  let ctx := [(KStr "device", PStr "phone")] in
  let run := @coordinate_debugging_session Z all_well "tab bar" (Some ctx) st in
  match memory_db st with
  | Some table => row_value <$> table !! "swarms/debugging/context"
  | None => None
  end = Some (Document (JObject []))
  /\ @_load_coordination_memory Z all_well "swarms/debugging/context" st = PDict []
  /\ dict_get (KStr "context") (returned_record run) = Some (PDict ctx)
  /\ dict_get (KStr "previous_findings") ctx = None.
Proof. vm_compute. repeat split; reflexivity. Qed.

(** ** Further properties of the Hook Gateway *)

Section hook_effects.
Context {World : Type} `{External World}.
Implicit Types (st : State World).

(** A hook appends at most one entry and changes nothing else of the
    coordinator. *)
Lemma hook_effect hook params st :
  exists entries,
    length entries <= 1
    /\ coordination_log (self (snd (_claude_flow_hook hook params st)))
       = (coordination_log (self st) ++ entries)%list
    /\ memory_db_path (self (snd (_claude_flow_hook hook params st)))
       = memory_db_path (self st).
Proof.
  unfold _claude_flow_hook.
  destruct (subprocess_run _ _) as [[rc out err|msg] w1].
  - destruct (datetime_now w1) as [now w2].
    destruct (rc =? 0)%Z; simpl; eexists [_]; repeat split; simpl; lia.
  - exists []. simpl. rewrite app_nil_r. repeat split; simpl; lia.
Qed.

(** X1: when the hook process completes, with whatever exit code, the
    hook returns [True] exactly for exit code 0 and appends exactly one
    entry, which records the hook name and the parameters as passed, the
    success flag, and the standard output of a success or the standard
    error of a failure; the database and the swarm are untouched. *)
Theorem hook_completed_logged hook params st rc out err w1 now w2 :
  subprocess_run (cmd_parts hook params) (world st) = (Completed rc out err, w1) ->
  datetime_now w1 = (now, w2) ->
  let r := _claude_flow_hook hook params st in
  fst r = (rc =? 0)%Z
  /\ coordination_log (self (snd r))
     = (coordination_log (self st)
        ++ [{| log_timestamp := isoformat now; log_hook := hook;
               log_params := params; log_success := (rc =? 0)%Z;
               log_captured := if (rc =? 0)%Z then Output out else Error err |}])%list
  /\ memory_db (snd r) = memory_db st
  /\ swarm (self (snd r)) = swarm (self st)
  /\ world (snd r) = w2.
Proof.
  intros Hrun Hnow r. unfold r, _claude_flow_hook. rewrite Hrun, Hnow.
  destruct (rc =? 0)%Z; done.
Qed.
End hook_effects.

(** ** Further properties of the Session Orchestrator *)

Section session_effects.
Context {World : Type} `{External World}.
Implicit Types (st : State World).

(** Everything a session on an initialized orchestrator does, step by
    step: the record it stores and under which key, the record or
    exception it ends with, and what it leaves in the coordinator. *)
Lemma session_anatomy issue ctx st sw :
  swarm (self st) = Some sw ->
  exists ts results sw' w_pre w_post stA entries,
    let sid := "debug-session-" +:+ pretty (unix_seconds (fst (datetime_now (world st)))) in
    let previous := _load_coordination_memory "swarms/debugging/context" st in
    let context :=
      if py_truthy previous
      then Some (dict_set (KStr "previous_findings") previous (default [] ctx))
      else ctx in
    let data := session_record sid issue ts results context in
    let stB := snd (_store_coordination_memory (session_key st) (PDict data) stA) in
    let r := coordinate_debugging_session issue ctx st in
    coordinate_debugging issue sw w_pre = (results, sw', w_post)
    /\ memory_db stA = memory_db st
    /\ length entries <= 3
    /\ memory_db (snd r) = memory_db stB
    /\ swarm (self (snd r)) = Some sw'
    /\ memory_db_path (self (snd r)) = memory_db_path (self st)
    /\ coordination_log (self (snd r)) = (coordination_log (self st) ++ entries)%list
    /\ fst r = match fst (generate_coordinated_solution results sw' (world stB)) with
               | Returned solution =>
                   Returned (PDict (dict_set (KStr "coordinated_solution") solution data))
               | Raised msg => Raised msg
               end.
Proof.
  intros Hsw. unfold session_key, coordinate_debugging_session. rewrite Hsw.
  destruct (datetime_now (world st)) as [now0 w0]. cbn [fst].
  match goal with |- context [_claude_flow_hook ?h ?p ?s] =>
    pose proof (hook_frame h p s) as [Hdb1 Hsw1];
    destruct (hook_effect h p s) as (e1 & Hlen1 & Hlog1 & Hpath1);
    destruct (_claude_flow_hook h p s) as [ok1 st1] end.
  simpl in Hdb1, Hsw1, Hlog1, Hpath1.
  destruct (coordinate_debugging issue sw (world st1)) as [[results sw'] w2] eqn:Hcd.
  cbn [fst snd world set_swarm set_world]. destruct (datetime_now w2) as [now1 w3].
  rewrite (load_memory_db "swarms/debugging/context" st1 st Hdb1).
  set (stA := set_world w3 (set_swarm (Some sw') (set_world w2 st1))).
  match goal with |- context [_store_coordination_memory ?k ?v stA] =>
    pose proof (store_frame k v stA) as Hself3;
    destruct (_store_coordination_memory k v stA) as [ok3 st3] eqn:Hst3 end.
  cbn [snd] in Hself3.
  destruct (generate_coordinated_solution results sw' (world st3))
    as [[solution|msg] w4] eqn:Hgen.
  - match goal with |- context [_claude_flow_hook ?h ?p ?s] =>
      pose proof (hook_frame h p s) as [Hdb5 Hsw5];
      destruct (hook_effect h p s) as (e5 & Hlen5 & Hlog5 & Hpath5);
      destruct (_claude_flow_hook h p s) as [ok5 st5] end.
    match goal with |- context [_claude_flow_hook ?h ?p ?s] =>
      pose proof (hook_frame h p s) as [Hdb6 Hsw6];
      destruct (hook_effect h p s) as (e6 & Hlen6 & Hlog6 & Hpath6);
      destruct (_claude_flow_hook h p s) as [ok6 st6] end.
    cbn [fst snd] in *.
    exists (isoformat now1), results, sw', (world st1), w2, stA, (e1 ++ e5 ++ e6)%list.
    cbv zeta. rewrite Hst3. cbn [fst snd]. rewrite Hgen. cbn [fst].
    split; [exact Hcd|]. split; [exact Hdb1|].
    split; [rewrite !length_app; lia|].
    split; [by rewrite Hdb6, Hdb5|].
    split; [by rewrite Hsw6, Hsw5; simpl; rewrite Hself3|].
    split; [by rewrite Hpath6, Hpath5; simpl; rewrite Hself3|].
    split; [|reflexivity].
    rewrite Hlog6, Hlog5. simpl. rewrite Hself3. simpl. rewrite Hlog1.
    by rewrite !app_assoc.
  - cbn [fst snd] in *.
    exists (isoformat now1), results, sw', (world st1), w2, stA, e1.
    cbv zeta. rewrite Hst3. cbn [fst snd]. rewrite Hgen. cbn [fst].
    split; [exact Hcd|]. split; [exact Hdb1|]. split; [lia|].
    split; [reflexivity|].
    split; [by simpl; rewrite Hself3|].
    split; [by simpl; rewrite Hself3|].
    split; [|reflexivity]. simpl. rewrite Hself3. simpl. exact Hlog1.
Qed.
End session_effects.

Lemma session_key_not_context {World : Type} `{External World} (st : State World) :
  session_key st ≠ "swarms/debugging/context".
Proof. unfold session_key. intros Heq. cbn in Heq. discriminate Heq. Qed.

Lemma json_native_session_record sid issue ts results context solution :
  json_native (PDict (session_record sid issue ts results context
                      ++ [(KStr "coordinated_solution", solution)])%list) = true ->
  json_native (PDict (session_record sid issue ts results context)) = true.
Proof.
  unfold session_record. cbn [app json_native forallb fst snd map].
  intros Hn. apply andb_prop in Hn as [_ Hn].
  apply andb_true_intro. split; [apply bool_decide_eq_true; compute_done|].
  destruct (bool_decide (NoDup (map fst results)) && forallb _ results);
    destruct (bool_decide (NoDup (map fst (default [] context)))
              && forallb _ (default [] context));
    simpl in *; done.
Qed.

Section session_properties.
Context {World : Type} `{External World}.
Implicit Types (st : State World).

(** After a session the swarm is still there, with the same agents. *)
Lemma session_keeps_swarm issue ctx st sw :
  swarm (self st) = Some sw ->
  exists sw',
    swarm (self (snd (coordinate_debugging_session issue ctx st))) = Some sw'
    /\ agents sw' = agents sw /\ max_agents sw' = max_agents sw
    /\ current_issue (debug_memory sw') = Some issue.
Proof.
  intros Hsw.
  destruct (session_anatomy issue ctx st sw Hsw)
    as (ts & results & sw' & wpre & wpost & stA & entries & Hall).
  cbv zeta in Hall. destruct Hall as (Hcd & _ & _ & _ & Hsw' & _).
  destruct (coordinate_debugging_spec issue sw wpre)
    as (r & dm & w0 & calls & _ & Hcd' & _ & _ & _ & Hissue & _).
  rewrite Hcd' in Hcd. injection Hcd as Hr Hsw'' Hw. subst sw'.
  exists (with_debug_memory dm sw). by repeat split.
Qed.

(** X2: a returned record tells whether the orchestrator was
    initialized. Without a swarm the session returns exactly
    [{"error": "Swarm not initialized"}] and changes nothing (no hook, no
    clock reading, no write); with a swarm the record has no [error]
    key, its six keys come in a fixed order, [issue] is the text passed
    in and [session_id] is ["debug-session-"] followed by the seconds of
    the first clock reading. *)
Theorem session_error_record issue ctx st sd st' :
  coordinate_debugging_session issue ctx st = (Returned (PDict sd), st') ->
  (swarm (self st) = None ->
     sd = [(KStr "error", PStr "Swarm not initialized")] /\ st' = st)
  /\ (swarm (self st) ≠ None ->
        dict_get (KStr "error") sd = None
        /\ map fst sd = [KStr "session_id"; KStr "issue"; KStr "timestamp";
                         KStr "agent_results"; KStr "context";
                         KStr "coordinated_solution"]
        /\ dict_get (KStr "issue") sd = Some (PStr issue)
        /\ dict_get (KStr "session_id") sd
           = Some (PStr ("debug-session-"
                         +:+ pretty (unix_seconds (fst (datetime_now (world st))))))).
Proof.
  intros Hrun. split.
  - intros Hnone. unfold coordinate_debugging_session in Hrun.
    rewrite Hnone in Hrun. by injection Hrun as <- <-.
  - intros Hsome. destruct (swarm (self st)) as [sw|] eqn:Hsw; [|done].
    destruct (session_anatomy issue ctx st sw Hsw)
      as (ts & results & sw' & wpre & wpost & stA & entries & Hall).
    cbv zeta in Hall. destruct Hall as (_ & _ & _ & _ & _ & _ & _ & Hfst).
    rewrite Hrun in Hfst. cbn [fst] in Hfst.
    destruct (fst (generate_coordinated_solution _ _ _)) as [solution|msg];
      [|discriminate].
    assert (sd = dict_set (KStr "coordinated_solution") solution
                   (session_record
                      ("debug-session-"
                       +:+ pretty (unix_seconds (fst (datetime_now (world st)))))
                      issue ts results
                      (if py_truthy (_load_coordination_memory
                                       "swarms/debugging/context" st)
                       then Some (dict_set (KStr "previous_findings")
                                    (_load_coordination_memory
                                       "swarms/debugging/context" st)
                                    (default [] ctx))
                       else ctx))) as -> by congruence.
    rewrite session_record_with_solution. repeat split; reflexivity.
Qed.

(** X3: a session writes one record and no other. Whatever the outcome
    (returned, raised, not initialized), every key other than the
    session's own reads after the session as it read before; in
    particular the session never writes [swarms/debugging/context], the
    key it reads its previous findings from. *)
Theorem session_writes_only_its_key issue ctx st :
  (forall k, k ≠ session_key st ->
     _load_coordination_memory k (snd (coordinate_debugging_session issue ctx st))
     = _load_coordination_memory k st)
  /\ _load_coordination_memory "swarms/debugging/context"
       (snd (coordinate_debugging_session issue ctx st))
     = _load_coordination_memory "swarms/debugging/context" st.
Proof.
  assert (forall k, k ≠ session_key st ->
    _load_coordination_memory k (snd (coordinate_debugging_session issue ctx st))
    = _load_coordination_memory k st) as Hother.
  { intros k Hk. destruct (swarm (self st)) as [sw|] eqn:Hsw.
    - destruct (session_anatomy issue ctx st sw Hsw)
        as (ts & results & sw' & wpre & wpost & stA & entries & Hall).
      cbv zeta in Hall. destruct Hall as (_ & HdbA & _ & Hdb & _).
      rewrite (load_memory_db _ _ _ Hdb).
      rewrite load_after_store_other by congruence.
      by apply load_memory_db.
    - unfold coordinate_debugging_session. by rewrite Hsw. }
  split; [exact Hother|]. apply Hother.
  intros Heq. by apply (session_key_not_context st).
Qed.

(** X4: what a session leaves in the coordinator. On an initialized
    orchestrator, whether the session returns or raises, the swarm
    afterwards has the same agents and capacity and remembers the issue
    it was given, the database path is unchanged, and the coordination
    log is the old log followed by at most three new entries: nothing is
    removed or rewritten. *)
Theorem session_leaves_coordinator issue ctx st sw :
  swarm (self st) = Some sw ->
  let st' := snd (coordinate_debugging_session issue ctx st) in
  (exists sw',
     swarm (self st') = Some sw'
     /\ agents sw' = agents sw /\ max_agents sw' = max_agents sw
     /\ current_issue (debug_memory sw') = Some issue)
  /\ memory_db_path (self st') = memory_db_path (self st)
  /\ exists entries,
       length entries <= 3
       /\ coordination_log (self st') = (coordination_log (self st) ++ entries)%list.
Proof.
  intros Hsw st'.
  destruct (session_anatomy issue ctx st sw Hsw)
    as (ts & results & sw' & wpre & wpost & stA & entries & Hall).
  cbv zeta in Hall.
  destruct Hall as (_ & _ & Hlen & _ & _ & Hpath & Hlog & _).
  split; [exact (session_keeps_swarm issue ctx st sw Hsw)|].
  split; [exact Hpath | by exists entries].
Qed.

(** X5: a session over an empty registry. If the swarm has no agents,
    the session still returns: [agent_results] is the empty mapping and
    [coordinated_solution] is the fixed text saying that no agents were
    available. *)
Theorem empty_registry_session issue ctx st sw :
  swarm (self st) = Some sw ->
  agents sw = [] ->
  exists sd,
    fst (coordinate_debugging_session issue ctx st) = Returned (PDict sd)
    /\ dict_get (KStr "agent_results") sd = Some (PDict [])
    /\ dict_get (KStr "coordinated_solution") sd
       = Some (PStr "No agents available for solution generation").
Proof.
  intros Hsw Hnil.
  destruct (session_anatomy issue ctx st sw Hsw)
    as (ts & results & sw' & wpre & wpost & stA & entries & Hall).
  cbv zeta in Hall. destruct Hall as (Hcd & _ & _ & _ & _ & _ & _ & Hfst).
  destruct (coordinate_debugging_spec issue sw wpre)
    as (r & dm & w0 & calls & _ & Hcd' & Hmap & Hres & _).
  rewrite Hcd' in Hcd. injection Hcd as Hr Hsw' _. subst r.
  rewrite Hnil in Hmap. apply map_eq_nil in Hmap. subst calls.
  cbn in Hres. subst results.
  unfold generate_coordinated_solution in Hfst. rewrite <- Hsw' in Hfst.
  cbn [agents with_debug_memory] in Hfst. rewrite Hnil in Hfst. cbn [fst] in Hfst.
  eexists. split; [exact Hfst|]. rewrite session_record_with_solution.
  split; reflexivity.
Qed.

(** What is stored for a session whose returned record is JSON-native
    and accepted by [json.dumps]. *)
Lemma session_persisted_native issue ctx st sw sd st' :
  swarm (self st) = Some sw ->
  coordinate_debugging_session issue ctx st = (Returned (PDict sd), st') ->
  json_native (PDict sd) = true ->
  is_Some (json_dumps (PDict sd)) ->
  exists d solution,
    sd = (d ++ [(KStr "coordinated_solution", solution)])%list
    /\ dict_get (KStr "issue") d = Some (PStr issue)
    /\ _load_coordination_memory (session_key st) st' = PDict d.
Proof.
  intros Hsw Hrun Hn Hser.
  destruct (session_anatomy issue ctx st sw Hsw)
    as (ts & results & sw' & wpre & wpost & stA & entries & Hall).
  cbv zeta in Hall. destruct Hall as (_ & _ & _ & Hdb & _ & _ & _ & Hfst).
  rewrite Hrun in Hdb, Hfst. cbn [fst snd] in Hdb, Hfst.
  destruct (fst (generate_coordinated_solution _ _ _)) as [solution|msg];
    [|discriminate].
  match type of Hfst with
  | Returned (PDict sd) = Returned (PDict (dict_set ?k ?v ?d)) =>
      assert (sd = dict_set k v d) as Hsd by congruence
  end.
  rewrite session_record_with_solution in Hsd. subst sd.
  eexists _, solution. split; [reflexivity|]. split; [reflexivity|].
  rewrite (load_memory_db _ _ _ Hdb). apply store_then_load.
  - by apply json_native_session_record with (solution := solution).
  - apply store_succeeds_iff. by apply json_dumps_prefix in Hser.
Qed.

(** X6: the persisted record is the returned record without its last
    field. For a session on an initialized orchestrator whose returned
    record is JSON-native and within the limits of [json.dumps], reading
    the session's key afterwards gives exactly the returned record minus
    [coordinated_solution]: same session id, issue, timestamp, agent
    results and context. *)
Theorem persisted_is_returned_minus_solution issue ctx st sw sd st' :
  swarm (self st) = Some sw ->
  coordinate_debugging_session issue ctx st = (Returned (PDict sd), st') ->
  json_native (PDict sd) = true ->
  is_Some (json_dumps (PDict sd)) ->
  exists d solution,
    sd = (d ++ [(KStr "coordinated_solution", solution)])%list
    /\ _load_coordination_memory (session_key st) st' = PDict d.
Proof.
  intros Hsw Hrun Hn Hser.
  destruct (session_persisted_native issue ctx st sw sd st' Hsw Hrun Hn Hser)
    as (d & solution & Hsd & _ & Hload).
  by exists d, solution.
Qed.

(** X7: two sessions started in the same second share one record. If a
    second session starts while the clock still shows the second in which
    the first one started, both use the same key, and after the second
    session (returning a JSON-native record within the limits of
    [json.dumps]) the record under that key is the second session's: the
    first session's record is gone. *)
Theorem same_second_sessions_share_a_record issue1 ctx1 issue2 ctx2 st sw sd2 :
  swarm (self st) = Some sw ->
  let st1 := snd (coordinate_debugging_session issue1 ctx1 st) in
  let r2 := coordinate_debugging_session issue2 ctx2 st1 in
  unix_seconds (fst (datetime_now (world st1)))
  = unix_seconds (fst (datetime_now (world st))) ->
  fst r2 = Returned (PDict sd2) ->
  json_native (PDict sd2) = true ->
  is_Some (json_dumps (PDict sd2)) ->
  session_key st1 = session_key st
  /\ exists d,
       _load_coordination_memory (session_key st) (snd r2) = PDict d
       /\ dict_get (KStr "issue") d = Some (PStr issue2).
Proof.
  intros Hsw st1 r2 Hsec Hret Hn Hser.
  assert (session_key st1 = session_key st) as Hkey
    by (unfold session_key; by rewrite Hsec).
  split; [exact Hkey|].
  destruct (session_keeps_swarm issue1 ctx1 st sw Hsw) as (sw1 & Hsw1 & _).
  fold st1 in Hsw1.
  destruct (session_persisted_native issue2 ctx2 st1 sw1 sd2 (snd r2) Hsw1)
    as (d & solution & _ & Hissue & Hload); [|exact Hn|exact Hser|].
  { unfold r2 in *.
    destruct (coordinate_debugging_session issue2 ctx2 st1) as [o s2].
    cbn [fst snd] in *. by rewrite Hret. }
  exists d. by rewrite <- Hkey.
Qed.
End session_properties.

(** ** Initialization, communication and the entry points *)

(** [json.dumps] accepts a record made of strings, booleans, small
    integers and lists of such, two levels deep. *)
Ltac accepted_by_json_dumps :=
  unfold json_dumps; destruct json_max_depth_two as [? ->];
  apply json_encode_dict_is_Some; repeat constructor; cbn [fst snd json_key];
  try (eexists; reflexivity);
  try (apply json_encode_list_is_Some; repeat constructor; eexists; reflexivity);
  try (cbn [json_encode]; rewrite int_str_ok_small by reflexivity;
       eexists; reflexivity).

Section lifecycle.
Context {World : Type} `{External World}.
Implicit Types (st : State World).

(** The two records that the program builds itself are always written. *)
Lemma metadata_is_written ts st :
  fst (_store_coordination_memory "swarms/metadata"
         (PDict [(KStr "initialized_at", PStr ts);
                 (KStr "agent_count",
                  PInt (Z.of_nat (length (agents create_terminal_debug_swarm))));
                 (KStr "agent_names",
                  PList (map (fun a => PStr (agent_name a))
                           (agents create_terminal_debug_swarm)));
                 (KStr "coordination_type", PStr "parallel_debugging")]) st) = true.
Proof. apply store_succeeds_iff. accepted_by_json_dumps. Qed.

Lemma communication_is_written key ts target message (active : bool) st :
  fst (_store_coordination_memory key
         (PDict [(KStr "timestamp", PStr ts);
                 (KStr "from", PStr "python_swarms");
                 (KStr "to", PStr target);
                 (KStr "message", PStr message);
                 (KStr "session_active", PBool active)]) st) = true.
Proof. apply store_succeeds_iff. accepted_by_json_dumps. Qed.

(** What initialization and a communication leave in the coordinator. *)
Lemma initialize_swarm_effects st :
  fst (initialize_swarm st) = true
  /\ swarm (self (snd (initialize_swarm st))) = Some create_terminal_debug_swarm
  /\ exists entries,
       length entries <= 1
       /\ coordination_log (self (snd (initialize_swarm st)))
          = (coordination_log (self st) ++ entries)%list.
Proof.
  unfold initialize_swarm.
  match goal with |- context [_claude_flow_hook ?h ?p ?s] =>
    pose proof (hook_frame h p s) as [_ Hsw2];
    destruct (hook_effect h p s) as (e2 & Hlen2 & Hlog2 & _);
    destruct (_claude_flow_hook h p s) as [ok2 st2] end.
  cbn [fst snd] in Hsw2, Hlog2.
  destruct (datetime_now (world st2)) as [now w].
  match goal with |- context [_store_coordination_memory ?k ?v ?s] =>
    pose proof (store_frame k v s) as Hself3;
    destruct (_store_coordination_memory k v s) as [ok3 st3] end.
  cbn [fst snd] in *. rewrite Hself3. cbn [self set_world].
  split; [reflexivity|]. split; [by rewrite Hsw2|].
  exists e2. by rewrite Hlog2.
Qed.

Lemma communicate_effects message target st :
  swarm (self (snd (communicate_with_claude_agents message target st)))
  = swarm (self st)
  /\ exists entries,
       length entries <= 1
       /\ coordination_log
            (self (snd (communicate_with_claude_agents message target st)))
          = (coordination_log (self st) ++ entries)%list.
Proof.
  unfold communicate_with_claude_agents.
  destruct (datetime_now (world st)) as [t0 w0].
  destruct (datetime_now w0) as [t1 w1].
  match goal with |- context [_store_coordination_memory ?k ?v ?s] =>
    pose proof (store_frame k v s) as Hself1;
    destruct (_store_coordination_memory k v s) as [ok1 st1] end.
  match goal with |- context [_claude_flow_hook ?h ?p ?s] =>
    pose proof (hook_frame h p s) as [_ Hsw2];
    destruct (hook_effect h p s) as (e2 & Hlen2 & Hlog2 & _);
    destruct (_claude_flow_hook h p s) as [ok2 st2] end.
  cbn [fst snd] in *. split; [by rewrite Hsw2, Hself1|].
  exists e2. split; [done|]. by rewrite Hlog2, Hself1.
Qed.

(** X8: [initialize_swarm] in any environment and from any state. It
    returns [True]; the swarm is the fresh five-agent swarm (a previous
    swarm and its shared memory are replaced); the record under
    [swarms/metadata] holds the agent count 5, the five names in registry
    order and the coordination type; every other key reads as before;
    the log gains at most one entry; the status then reports an
    initialized swarm of five agents with those names. This holds
    whatever the hook does. *)
Theorem initialize_swarm_postcondition st :
  let r := initialize_swarm st in
  let names := ["FrontendDebugger"; "BackendDebugger"; "SystemIntegrator";
                "TestCoordinator"; "PerformanceAnalyzer"] in
  fst r = true
  /\ swarm (self (snd r)) = Some create_terminal_debug_swarm
  /\ (exists ts,
        _load_coordination_memory "swarms/metadata" (snd r)
        = PDict [(KStr "initialized_at", PStr ts);
                 (KStr "agent_count", PInt 5);
                 (KStr "agent_names", PList (map PStr names));
                 (KStr "coordination_type", PStr "parallel_debugging")])
  /\ (forall k, k ≠ "swarms/metadata" ->
        _load_coordination_memory k (snd r) = _load_coordination_memory k st)
  /\ (exists entries,
        length entries <= 1
        /\ coordination_log (self (snd r))
           = (coordination_log (self st) ++ entries)%list)
  /\ swarm_initialized (get_coordination_status (snd r)) = true
  /\ agent_count (get_coordination_status (snd r)) = 5
  /\ agent_names (get_coordination_status (snd r)) = Some names.
Proof.
  intros r names. unfold r, initialize_swarm.
  match goal with |- context [_claude_flow_hook ?h ?p ?s] =>
    pose proof (hook_frame h p s) as [Hdb2 Hsw2];
    destruct (hook_effect h p s) as (e2 & Hlen2 & Hlog2 & _);
    destruct (_claude_flow_hook h p s) as [ok2 st2] end.
  cbn [fst snd] in Hdb2, Hsw2, Hlog2.
  destruct (datetime_now (world st2)) as [now w].
  match goal with |- context [_store_coordination_memory ?k ?v ?s] =>
    pose proof (store_frame k v s) as Hself3;
    pose proof (store_then_load k v s eq_refl (metadata_is_written _ s)) as Hload3;
    pose proof (fun k' Hne => load_after_store_other k k' v s Hne) as Hother3;
    destruct (_store_coordination_memory k v s) as [ok3 st3] end.
  cbn [fst snd] in *.
  assert (self st3 = self st2) as Hself by (by rewrite Hself3).
  split; [reflexivity|].
  split; [by rewrite Hself, Hsw2|].
  split; [by exists (isoformat now)|].
  split.
  { intros k Hk. rewrite Hother3 by done. by apply load_memory_db. }
  split; [exists e2; by rewrite Hself, Hlog2|].
  unfold get_coordination_status. cbn [swarm_initialized agent_count agent_names].
  rewrite Hself, Hsw2. done.
Qed.

(** X9: [communicate_with_claude_agents] persists what it returns. The
    returned message has the sender ["python_swarms"], the target and
    the untruncated text passed in, and [session_active] telling whether
    a swarm is initialized; reading the key
    [swarms/communication/<seconds of the second clock reading>]
    afterwards gives exactly that message. The swarm is untouched, every
    other key reads as before, and the log gains at most one entry,
    whatever the hook does. *)
Theorem communicate_persists_message message target st :
  let r := communicate_with_claude_agents message target st in
  let now0 := datetime_now (world st) in
  let key := "swarms/communication/"
             +:+ pretty (unix_seconds (fst (datetime_now (snd now0)))) in
  fst r = PDict [(KStr "timestamp", PStr (isoformat (fst now0)));
                 (KStr "from", PStr "python_swarms");
                 (KStr "to", PStr target);
                 (KStr "message", PStr message);
                 (KStr "session_active",
                  PBool (bool_decide (swarm (self st) ≠ None)))]
  /\ _load_coordination_memory key (snd r) = fst r
  /\ (forall k, k ≠ key ->
        _load_coordination_memory k (snd r) = _load_coordination_memory k st)
  /\ swarm (self (snd r)) = swarm (self st)
  /\ exists entries,
       length entries <= 1
       /\ coordination_log (self (snd r))
          = (coordination_log (self st) ++ entries)%list.
Proof.
  intros r now0 key. unfold r, key, now0, communicate_with_claude_agents.
  destruct (datetime_now (world st)) as [t0 w0]. cbn [fst snd].
  destruct (datetime_now w0) as [t1 w1]. cbn [fst snd].
  match goal with |- context [_store_coordination_memory ?k ?v ?s] =>
    pose proof (store_frame k v s) as Hself1;
    pose proof (store_then_load k v s eq_refl (communication_is_written _ _ _ _ _ s))
      as Hload1;
    pose proof (fun k' Hne => load_after_store_other k k' v s Hne) as Hother1;
    destruct (_store_coordination_memory k v s) as [ok1 st1] end.
  match goal with |- context [_claude_flow_hook ?h ?p ?s] =>
    pose proof (hook_frame h p s) as [Hdb2 Hsw2];
    destruct (hook_effect h p s) as (e2 & Hlen2 & Hlog2 & _);
    destruct (_claude_flow_hook h p s) as [ok2 st2] end.
  cbn [fst snd] in *.
  split.
  { by destruct (swarm (self st)). }
  split; [by rewrite (load_memory_db _ st2 st1 Hdb2)|].
  split.
  { intros k Hk. rewrite (load_memory_db _ st2 st1 Hdb2).
    rewrite Hother1 by done. by apply load_memory_db. }
  split; [by rewrite Hsw2, Hself1|].
  exists e2. split; [done|]. by rewrite Hlog2, Hself1.
Qed.

(** X10: [test_swarm_integration] always reports five coordinated
    agents. Whatever the workers do (answer or raise), its result has
    exactly five entries, under the five registry names in registry
    order. *)
Theorem test_swarm_integration_five_entries (w : World) :
  map fst (fst (test_swarm_integration w))
  = map KStr ["FrontendDebugger"; "BackendDebugger"; "SystemIntegrator";
              "TestCoordinator"; "PerformanceAnalyzer"].
Proof.
  unfold test_swarm_integration.
  destruct (coordinate_debugging_spec integration_test_issue
              create_terminal_debug_swarm w)
    as (r & dm & w0 & calls & _ & Hcd & Hmap & Hres & _).
  rewrite Hcd. cbn [fst]. rewrite Hres, record_onto_NoDup.
  - rewrite map_map. cbn [fst].
    change (map (fun c => KStr (call_name c)) calls)
      with (map (fun c => KStr (agent_name (call_agent c))) calls).
    rewrite <- (map_map call_agent (fun a => KStr (agent_name a))), Hmap.
    reflexivity.
  - change (map call_name calls) with (map (fun c => agent_name (call_agent c)) calls).
    rewrite <- (map_map call_agent agent_name), Hmap.
    apply (bool_decide_unpack _). vm_compute. exact I.
Qed.

(** X11: [main] ends normally or with the synthesis worker's own
    exception, never with a [KeyError] or [TypeError] on
    [session_result['session_id']]. From any database content and in any
    environment: if [main] raises [msg], then the first agent raised
    [msg] on a synthesis request; and in every case the coordinator ends
    with the five-agent swarm and at most five log entries. *)
Theorem main_only_fails_in_synthesis db (w : World) :
  let r := main db w in
  match fst r with
  | Returned _ => True
  | Raised msg =>
      exists debug_results w1,
        fst (agent_run frontend_agent (SolutionPrompt debug_results) w1) = Raised msg
  end
  /\ agent_count (get_coordination_status (snd r)) = 5
  /\ coordination_log_entries (get_coordination_status (snd r)) <= 5.
Proof.
  intros r. unfold r, main.
  set (st0 := {| self := new_coordinator ".swarm/memory.db"; memory_db := db;
                 world := w |}).
  destruct (initialize_swarm_effects st0) as (Hok & Hsw1 & e1 & Hlen1 & Hlog1).
  destruct (initialize_swarm st0) as [ok st1]. cbn [fst snd] in *. subst ok.
  destruct (communicate_effects "Python swarms ready for coordinated debugging"
              "all" st1) as (Hsw2 & e2 & Hlen2 & Hlog2).
  destruct (communicate_with_claude_agents _ _ st1) as [msg2 st2].
  cbn [fst snd] in *. rewrite Hsw1 in Hsw2.
  destruct (session_anatomy main_test_issue None st2 _ Hsw2)
    as (ts & results & sw' & wpre & wpost & stA & e3 & Hall).
  cbv zeta in Hall.
  destruct Hall as (Hcd & _ & Hlen3 & _ & Hsw3 & _ & Hlog3 & Hfst).
  destruct (session_keeps_swarm main_test_issue None st2 _ Hsw2)
    as (sw3 & Hsw3' & Hagents & _).
  destruct (coordinate_debugging_spec main_test_issue create_terminal_debug_swarm wpre)
    as (r0 & dm & w0 & calls & _ & Hcd' & _).
  rewrite Hcd' in Hcd. injection Hcd as Hr Hsweq Hw.
  assert (agent_count (get_coordination_status
                         (snd (coordinate_debugging_session main_test_issue None st2))) = 5
          /\ coordination_log_entries
               (get_coordination_status
                  (snd (coordinate_debugging_session main_test_issue None st2))) <= 5)
    as Hstatus.
  { unfold get_coordination_status. cbn [agent_count coordination_log_entries].
    rewrite Hsw3', Hagents, Hlog3, Hlog2, Hlog1. cbn [coordination_log self st0 new_coordinator].
    rewrite !length_app. cbn [length agents create_terminal_debug_swarm]. split; [reflexivity|]. simpl. lia. }
  destruct (coordinate_debugging_session main_test_issue None st2) as [o st3].
  cbn [fst snd] in *.
  destruct (fst (generate_coordinated_solution results sw' _)) as [solution|msg] eqn:Hgen.
  - subst o. rewrite session_record_with_solution. cbn. done.
  - subst o. cbn [fst snd]. split; [|exact Hstatus].
    unfold generate_coordinated_solution in Hgen. rewrite <- Hsweq in Hgen.
    cbn in Hgen. eauto.
Qed.
End lifecycle.

(** ** Further properties of dispatch *)

(** The entry under a name is what the last call under that name left. *)
Lemma record_onto_last (calls : list Call) (j : nat) (c : Call) :
  calls !! j = Some c ->
  (forall k c', j < k -> calls !! k = Some c' -> call_name c' ≠ call_name c) ->
  dict_get (KStr (call_name c)) (record_onto [] calls)
  = Some (recorded (call_outcome c)).
Proof.
  induction calls as [|c0 calls IH] using rev_ind; intros Hj Hlast; [done|].
  rewrite record_onto_snoc.
  apply lookup_app_Some in Hj as [Hj|[Hge Hj]].
  - assert (call_name c0 ≠ call_name c) as Hne.
    { apply (Hlast (length calls)).
      - by apply lookup_lt_Some in Hj.
      - by rewrite lookup_app_r, Nat.sub_diag. }
    rewrite dict_get_set_ne by congruence.
    apply IH; [done|]. intros k c' Hlt Hk. apply (Hlast k c' Hlt).
    by apply lookup_app_l_Some.
  - destruct (j - length calls) as [|n] eqn:Hn; [|by destruct n].
    simpl in Hj. injection Hj as ->. apply dict_get_set_eq.
Qed.

Lemma record_onto_keys (calls : list Call) (name : string) :
  is_Some (dict_get (KStr name) (record_onto [] calls))
  <-> name ∈ map call_name calls.
Proof.
  induction calls as [|c calls IH] using rev_ind.
  - simpl. split; [by intros [? ?] | by intros ?%elem_of_nil].
  - rewrite record_onto_snoc, map_app, elem_of_app. simpl.
    rewrite list_elem_of_singleton.
    destruct (decide (call_name c = name)) as [->|Hne].
    + rewrite dict_get_set_eq. split; eauto.
    + rewrite dict_get_set_ne by congruence. rewrite IH. split; [tauto|].
      intros [?|?]; [done | congruence].
Qed.

Lemma record_onto_length (calls : list Call) :
  length (record_onto [] calls) <= length calls.
Proof.
  induction calls as [|c calls IH] using rev_ind; [done|].
  rewrite record_onto_snoc, length_app. simpl.
  destruct (decide (KStr (call_name c) ∈ map fst (record_onto [] calls))) as [Hin|Hnot].
  - rewrite dict_set_length_present by done. lia.
  - rewrite dict_set_fresh by done. rewrite length_app. simpl. lia.
Qed.

Section dispatch_properties.
Context {World : Type} `{External World}.

(** X12: one dispatch, whatever the worker names are (distinct or not).
    The recorded calls are the calls [coordinate_debugging] made, one
    after the other: every agent of the registry is called exactly once,
    in registry order; the result mapping has an entry under a name
    exactly when some agent has that name, so never more entries than
    agents; the swarm keeps its agents and capacity, and its shared
    memory holds the issue and the findings committed by these calls. *)
Theorem dispatch_calls_each_agent_once issue sw (w : World) :
  let r := coordinate_debugging_calls issue sw w in
  let results := fst (fst (fst r)) in
  let sw' := snd (fst (fst r)) in
  let calls := snd r in
  coordinate_debugging issue sw w = fst r
  /\ calls_made w calls (snd (fst r))
  /\ map call_agent calls = agents sw
  /\ (forall name, is_Some (dict_get (KStr name) results)
                   <-> name ∈ map agent_name (agents sw))
  /\ length results <= length (agents sw)
  /\ agents sw' = agents sw /\ max_agents sw' = max_agents sw
  /\ current_issue (debug_memory sw') = Some issue
  /\ agent_findings (debug_memory sw') = Some (commit_onto [] calls).
Proof.
  destruct (coordinate_debugging_spec issue sw w)
    as (r & dm & w0 & calls & Hc & _ & Hmap & Hres & Hfind & Hissue & _).
  destruct (coordinate_debugging_calls_made _ _ _ _ _ _ _ Hc) as [Hcd Hmade].
  rewrite Hc. cbn [fst snd]. subst r.
  assert (map call_name calls = map agent_name (agents sw)) as Hnames
    by (rewrite <- Hmap, map_map; done).
  split; [exact Hcd|]. split; [exact Hmade|].
  split; [exact Hmap|]. split; [|split].
  - intros name. by rewrite record_onto_keys, Hnames.
  - rewrite <- Hmap, length_map. apply record_onto_length.
  - by repeat split.
Qed.

(** X13: workers that share a name. For any registry, the recorded
    calls being the calls [coordinate_debugging] made, the entry that a
    dispatch leaves under a name is the outcome of the last call made
    under that name: an earlier worker of the same name is overwritten in
    the results. *)
Theorem duplicate_names_last_wins issue sw (w : World) results sw' w' calls j c :
  coordinate_debugging_calls issue sw w = (results, sw', w', calls) ->
  calls !! j = Some c ->
  (forall k c', j < k -> calls !! k = Some c' -> call_name c' ≠ call_name c) ->
  coordinate_debugging issue sw w = (results, sw', w')
  /\ calls_made w calls w'
  /\ dict_get (KStr (call_name c)) results = Some (recorded (call_outcome c)).
Proof.
  intros Hrun Hj Hlast.
  destruct (coordinate_debugging_calls_made _ _ _ _ _ _ _ Hrun) as [Hcd Hmade].
  split; [exact Hcd|]. split; [exact Hmade|].
  destruct (coordinate_debugging_spec issue sw w)
    as (r & dm & w0 & cs & Hc & _ & _ & Hres & _).
  rewrite Hc in Hrun. injection Hrun as -> _ _ ->.
  rewrite Hres. by apply record_onto_last with (j := j).
Qed.

(** X14: an error is recorded but never shared. In a dispatch over
    workers with distinct names in which the call of worker [j] raises,
    the recorded calls being the calls [coordinate_debugging] made, no
    prompt passed to a worker of this dispatch (before or after [j])
    carries a finding under [j]'s name, and neither does the shared
    memory left behind, although the results hold the error text under
    that name. *)
Theorem errors_are_not_shared issue sw (w : World) results sw' w' calls j cj msg :
  NoDup (map agent_name (agents sw)) ->
  coordinate_debugging_calls issue sw w = (results, sw', w', calls) ->
  calls !! j = Some cj ->
  call_outcome cj = Raised msg ->
  coordinate_debugging issue sw w = (results, sw', w')
  /\ calls_made w calls w'
  /\ (forall i c findings,
        calls !! i = Some c ->
        call_prompt c = ContextPrompt issue findings ->
        dict_get (KStr (call_name cj)) findings = None)
  /\ (exists findings,
        agent_findings (debug_memory sw') = Some findings
        /\ dict_get (KStr (call_name cj)) findings = None)
  /\ dict_get (KStr (call_name cj)) results = Some (PStr ("Error: " +:+ msg)).
Proof.
  intros Hnd Hrun Hj Hout.
  pose proof (calls_names _ _ _ _ _ _ _ Hrun) as Hnames.
  destruct (coordinate_debugging_calls_made _ _ _ _ _ _ _ Hrun) as [Hcd Hmade].
  split; [exact Hcd|]. split; [exact Hmade|].
  destruct (coordinate_debugging_spec issue sw w)
    as (r & dm & w0 & cs & Hc & _ & _ & Hres & Hfind & _ & Hprompt).
  rewrite Hc in Hrun. injection Hrun as -> <- _ ->.
  assert (NoDup (map call_name calls)) as Hndc by (by rewrite Hnames).
  assert (forall l, (forall i c, l !! i = Some c -> calls !! i = Some c) ->
            dict_get (KStr (call_name cj)) (commit_onto [] l) = None) as Hnone.
  { intros l Hsub.
    destruct (dict_get (KStr (call_name cj)) (commit_onto [] l)) as [x|] eqn:Hget;
      [|done].
    exfalso. apply commit_onto_sound in Hget as (i & c & Hi & Hname & Hret).
    apply Hsub in Hi.
    assert (i = j) as ->.
    { apply (NoDup_lookup _ i j (call_name cj) Hndc).
      - by rewrite list_lookup_fmap, Hi; simpl; rewrite Hname.
      - by rewrite list_lookup_fmap, Hj. }
    congruence. }
  split; [|split].
  - intros i c findings Hi Hp. rewrite (Hprompt i c Hi) in Hp.
    injection Hp as <-. apply Hnone.
    intros i' c' Hi'. by apply lookup_take_Some in Hi' as [? _].
  - exists (commit_onto [] calls). split; [exact Hfind|]. by apply Hnone.
  - rewrite Hres, (record_onto_lookup calls j cj) by done. by rewrite Hout.
Qed.
End dispatch_properties.

(** ** Further properties of the Memory Store *)

Section store_properties.
Context {World : Type} `{External World}.
Implicit Types (st : State World) (k : string) (v : PyVal).

(** X15: a failed write changes no record. A write never touches the
    coordinator object; one that returns [True] was given a value with no
    non-serializable object at any depth; and after one that returns
    [False] every key reads as it read before. *)
Theorem failed_write_changes_no_record k v st :
  let r := _store_coordination_memory k v st in
  self (snd r) = self st
  /\ (fst r = true -> serializable v = true)
  /\ (fst r = false ->
        forall k', _load_coordination_memory k' (snd r)
                   = _load_coordination_memory k' st).
Proof.
  intros r. split; [apply store_frame|]. split.
  - intros Hok. apply store_succeeds_iff in Hok.
    by apply json_encode_serializable in Hok.
  - intros Hfail k'. apply load_after_failed_store.
    destruct (json_dumps v) as [j|] eqn:Hj; [|done].
    assert (fst r = true) as Hok by (apply store_succeeds_iff; eauto).
    congruence.
Qed.

(** X16: what the store returns can be stored again unchanged. Every
    value read from the store is JSON-native (tuples and non-string keys
    never come out of it), so writing a value that was read, under any
    key and in any state, and reading it back returns exactly that
    value. *)
Theorem read_values_are_stable k st :
  json_native (_load_coordination_memory k st) = true
  /\ forall k' (st' : State World),
       _load_coordination_memory k'
         (snd (_store_coordination_memory k' (_load_coordination_memory k st) st'))
       = _load_coordination_memory k st.
Proof.
  destruct (load_native k st) as (Hn & j & Hj & _).
  split; [exact Hn|]. intros k' st'. apply store_then_load; [exact Hn|].
  apply store_succeeds_iff. eauto.
Qed.

(** X17: writes under different keys do not interfere. For two distinct
    keys and any two values, every key reads the same whichever write
    comes first; and after both writes each key whose value is
    JSON-native and was written with success reads as that value. *)
Theorem writes_to_distinct_keys_commute k1 k2 v1 v2 st :
  k1 ≠ k2 ->
  let put1 := fun s => snd (_store_coordination_memory k1 v1 s) in
  let put2 := fun s => snd (_store_coordination_memory k2 v2 s) in
  (forall k, _load_coordination_memory k (put2 (put1 st))
             = _load_coordination_memory k (put1 (put2 st)))
  /\ (json_native v1 = true ->
      fst (_store_coordination_memory k1 v1 st) = true ->
      _load_coordination_memory k1 (put2 (put1 st)) = v1)
  /\ (json_native v2 = true ->
      fst (_store_coordination_memory k2 v2 (put1 st)) = true ->
      _load_coordination_memory k2 (put2 (put1 st)) = v2).
Proof.
  intros Hne put1 put2.
  assert (forall k0 v0 k (s : State World),
    _load_coordination_memory k (snd (_store_coordination_memory k0 v0 s))
    = if decide (k = k0)
      then match json_dumps v0 with
           | Some j => default PNone (json_loads j)
           | None => _load_coordination_memory k s
           end
      else _load_coordination_memory k s) as Hput.
  { intros k0 v0 k s. destruct (decide (k = k0)) as [->|Hk].
    - destruct (json_dumps v0) as [j|] eqn:Hj.
      + by apply load_after_store.
      + by apply load_after_failed_store.
    - by apply load_after_store_other. }
  split; [|split].
  - intros k. unfold put1, put2. rewrite !Hput.
    destruct (decide (k = k2)) as [->|?], (decide (k2 = k1)) as [?|?];
      try congruence; by destruct (decide (k = k1)).
  - intros Hn Hok. unfold put2. rewrite load_after_store_other by done.
    by apply store_then_load.
  - intros Hn Hok. unfold put2. by apply store_then_load.
Qed.

(** X18: what the status counts. If a JSON-native mapping is written
    with success under the bare key [swarms/debugging/sessions], the
    status reports its number of entries as [debugging_sessions]; if a
    JSON-native list is written there with success, it reports 0. The
    other status fields do not depend on that record. *)
Theorem status_counts_mapping_under_bare_key (d : PyDict) (l : list PyVal) st :
  json_native (PDict d) = true ->
  json_native (PList l) = true ->
  let put := fun v => _store_coordination_memory "swarms/debugging/sessions" v st in
  fst (put (PDict d)) = true ->
  fst (put (PList l)) = true ->
  debugging_sessions (get_coordination_status (snd (put (PDict d)))) = length d
  /\ debugging_sessions (get_coordination_status (snd (put (PList l)))) = 0
  /\ agent_count (get_coordination_status (snd (put (PDict d))))
     = agent_count (get_coordination_status st)
  /\ coordination_log_entries (get_coordination_status (snd (put (PDict d))))
     = coordination_log_entries (get_coordination_status st).
Proof.
  intros Hd Hl put Hokd Hokl. unfold put in *.
  rewrite !status_reads_exact_key.
  rewrite (store_then_load _ _ st Hd Hokd), (store_then_load _ _ st Hl Hokl).
  split; [done|]. split; [done|].
  unfold get_coordination_status. cbn [agent_count coordination_log_entries].
  by rewrite store_frame.
Qed.
End store_properties.

(** ** Further worked scenarios *)

(** X1 at a hook that exits with code 1. *)
Lemma hook_completed_logged_witness :
  let st := initialized hooks_exit_1 in
  let r := @_claude_flow_hook Z hooks_exit_1 "notify" [("level", ArgStr "info")] st in
  fst r = (1 =? 0)%Z
  /\ coordination_log (self (snd r))
     = (coordination_log (self st)
        ++ [{| log_timestamp := "T+" +:+ pretty (world st); log_hook := "notify";
               log_params := [("level", ArgStr "info")];
               log_success := (1 =? 0)%Z;
               log_captured := if (1 =? 0)%Z then Output "" else Error "hook failed" |}])%list
  /\ memory_db (snd r) = memory_db st
  /\ swarm (self (snd r)) = swarm (self st)
  /\ world (snd r) = (world st + 1)%Z.
Proof.
  intros st.
  apply (@hook_completed_logged Z hooks_exit_1 "notify" [("level", ArgStr "info")]
           st 1%Z "" "hook failed" (world st)
           {| unix_seconds := 1700000000 + world st;
              isoformat := "T+" +:+ pretty (world st) |} (world st + 1)%Z);
    reflexivity.
Defined.

(** X2 on a coordinator that was never initialized. *)
Lemma session_error_record_witness :
  let sd := [(KStr "error", PStr "Swarm not initialized")] in
  (swarm (self fresh) = None ->
     sd = [(KStr "error", PStr "Swarm not initialized")] /\ fresh = fresh)
  /\ (swarm (self fresh) ≠ None ->
        dict_get (KStr "error") sd = None
        /\ map fst sd = [KStr "session_id"; KStr "issue"; KStr "timestamp";
                         KStr "agent_results"; KStr "context";
                         KStr "coordinated_solution"]
        /\ dict_get (KStr "issue") sd = Some (PStr "tab bar")
        /\ dict_get (KStr "session_id") sd
           = Some (PStr ("debug-session-"
                         +:+ pretty (unix_seconds
                                       (fst (@datetime_now Z all_well (world fresh))))))).
Proof.
  intros sd.
  apply (@session_error_record Z all_well "tab bar" None fresh sd fresh).
  reflexivity.
Defined.

(** X4 at the first session after initialization, every hook failing. *)
Lemma session_leaves_coordinator_witness :
  let st := initialized hooks_exit_1 in
  let st' := snd (@coordinate_debugging_session Z hooks_exit_1 "tab bar" None st) in
  (exists sw',
     swarm (self st') = Some sw'
     /\ agents sw' = agents create_terminal_debug_swarm
     /\ max_agents sw' = max_agents create_terminal_debug_swarm
     /\ current_issue (debug_memory sw') = Some "tab bar")
  /\ memory_db_path (self st') = memory_db_path (self st)
  /\ exists entries,
       length entries <= 3
       /\ coordination_log (self st') = (coordination_log (self st) ++ entries)%list.
Proof.
  intros st.
  apply (@session_leaves_coordinator Z hooks_exit_1 "tab bar" None st
           create_terminal_debug_swarm).
  reflexivity.
Defined.

(** X5 on a swarm that was built by hand and never given agents. *)
Lemma empty_registry_session_witness :
  exists sd,
    fst (@coordinate_debugging_session Z all_well "tab bar" None (hand_built no_agents))
    = Returned (PDict sd)
    /\ dict_get (KStr "agent_results") sd = Some (PDict [])
    /\ dict_get (KStr "coordinated_solution") sd
       = Some (PStr "No agents available for solution generation").
Proof.
  apply (@empty_registry_session Z all_well "tab bar" None (hand_built no_agents)
           no_agents); reflexivity.
Defined.

(** X6 at the first session after initialization. *)
Lemma persisted_is_returned_minus_solution_witness :
  exists d solution,
    returned_record (first_session all_well)
    = (d ++ [(KStr "coordinated_solution", solution)])%list
    /\ @_load_coordination_memory Z all_well
         (@session_key Z all_well (initialized all_well))
         (snd (first_session all_well)) = PDict d.
Proof.
  apply (@persisted_is_returned_minus_solution Z all_well "mobile tab bar broken" None
           (initialized all_well) create_terminal_debug_swarm
           (returned_record (first_session all_well)) (snd (first_session all_well))).
  - reflexivity.
  - vm_compute. reflexivity.
  - vm_compute. reflexivity.
  - vm_compute. eexists. reflexivity.
Defined.

(** X7 with a clock that stands still. *)
Lemma same_second_sessions_share_a_record_witness :
  let st := initialized frozen_clock in
  let st1 := snd (@coordinate_debugging_session Z frozen_clock "tab bar" None st) in
  let r2 := @coordinate_debugging_session Z frozen_clock "scrolling" None st1 in
  @session_key Z frozen_clock st1 = @session_key Z frozen_clock st
  /\ exists d,
       @_load_coordination_memory Z frozen_clock
         (@session_key Z frozen_clock st) (snd r2) = PDict d
       /\ dict_get (KStr "issue") d = Some (PStr "scrolling").
Proof.
  intros st st1 r2.
  apply (@same_second_sessions_share_a_record Z frozen_clock "tab bar" None
           "scrolling" None st create_terminal_debug_swarm (returned_record r2)).
  - reflexivity.
  - reflexivity.
  - vm_compute. reflexivity.
  - vm_compute. reflexivity.
  - vm_compute. eexists. reflexivity.
Defined.

(** X13 with two workers named [A]: the second one's answer stays. *)
Lemma duplicate_names_last_wins_witness :
  let E := scripted run_counts_findings proc_ok in
  let run := @coordinate_debugging_calls Z E "tab bar" twins 0%Z in
  let second := {| call_agent := worker "A";
                   call_prompt := ContextPrompt "tab bar" [(KStr "A", PInt 0)];
                   call_outcome := Returned (PInt 1) |} in
  @coordinate_debugging Z E "tab bar" twins 0%Z = fst run
  /\ @calls_made Z E 0%Z (snd run) (snd (fst run))
  /\ dict_get (KStr (call_name second)) (fst (fst (fst run)))
     = Some (recorded (call_outcome second)).
Proof.
  intros E run second.
  apply (@duplicate_names_last_wins Z E "tab bar" twins 0%Z
           (fst (fst (fst run))) (snd (fst (fst run))) (snd (fst run)) (snd run)
           1 second).
  - vm_compute. reflexivity.
  - vm_compute. reflexivity.
  - intros k c' Hlt Hk. destruct k as [|[|[|k]]]; [lia | lia | | ].
    + vm_compute in Hk. injection Hk as <-. vm_compute. discriminate.
    + vm_compute in Hk. discriminate.
Defined.

Example twins_results :
  fst (fst (@coordinate_debugging Z (scripted run_counts_findings proc_ok)
              "tab bar" twins 0%Z))
  = [(KStr "A", PInt 1); (KStr "B", PInt 1)].
Proof. vm_compute. reflexivity. Qed.

(** X14 at workers [A; B; C] with [B] raising. *)
Lemma errors_are_not_shared_witness :
  let E := scripted (run_one_raises "B") proc_ok in
  let run := @coordinate_debugging_calls Z E "tab bar" abc 0%Z in
  let b := {| call_agent := worker "B";
              call_prompt := ContextPrompt "tab bar" [(KStr "A", PStr "analysis by A")];
              call_outcome := Raised "model unavailable" |} in
  @coordinate_debugging Z E "tab bar" abc 0%Z = fst run
  /\ @calls_made Z E 0%Z (snd run) (snd (fst run))
  /\ (forall i c findings,
        snd run !! i = Some c ->
        call_prompt c = ContextPrompt "tab bar" findings ->
        dict_get (KStr (call_name b)) findings = None)
  /\ (exists findings,
        agent_findings (debug_memory (snd (fst (fst run)))) = Some findings
        /\ dict_get (KStr (call_name b)) findings = None)
  /\ dict_get (KStr (call_name b)) (fst (fst (fst run)))
     = Some (PStr ("Error: " +:+ "model unavailable")).
Proof.
  intros E run b.
  apply (@errors_are_not_shared Z E "tab bar" abc 0%Z
           (fst (fst (fst run))) (snd (fst (fst run))) (snd (fst run)) (snd run)
           1 b "model unavailable").
  - apply (bool_decide_unpack _). vm_compute. exact I.
  - vm_compute. reflexivity.
  - vm_compute. reflexivity.
  - reflexivity.
Defined.

(** X17 at two keys of the program; the second value holds a tuple. *)
Lemma writes_to_distinct_keys_commute_witness :
  let v1 := PDict [(KStr "agent_count", PInt 5)] in
  let v2 := PList [PStr "css"; PTuple [PInt 1; PInt 2]] in
  let get := @_load_coordination_memory Z all_well in
  let put1 := fun s => snd (@_store_coordination_memory Z all_well "swarms/metadata" v1 s) in
  let put2 := fun s =>
    snd (@_store_coordination_memory Z all_well "swarms/debugging/context" v2 s) in
  (forall k, get k (put2 (put1 fresh)) = get k (put1 (put2 fresh)))
  /\ (json_native v1 = true ->
      fst (@_store_coordination_memory Z all_well "swarms/metadata" v1 fresh) = true ->
      get "swarms/metadata" (put2 (put1 fresh)) = v1)
  /\ (json_native v2 = true ->
      fst (@_store_coordination_memory Z all_well "swarms/debugging/context" v2
             (put1 fresh)) = true ->
      get "swarms/debugging/context" (put2 (put1 fresh)) = v2).
Proof.
  intros v1 v2.
  apply (@writes_to_distinct_keys_commute Z all_well "swarms/metadata"
           "swarms/debugging/context" v1 v2 fresh).
  discriminate.
Defined.

(** X18 with a mapping of two entries under the bare key. *)
Lemma status_counts_mapping_under_bare_key_witness :
  let d := [(KStr "debug-session-1", PStr "a"); (KStr "debug-session-2", PStr "b")] in
  let l := [PStr "debug-session-1"; PStr "debug-session-2"] in
  let st := initialized all_well in
  let status := @get_coordination_status Z all_well in
  let put := fun v =>
    snd (@_store_coordination_memory Z all_well "swarms/debugging/sessions" v st) in
  debugging_sessions (status (put (PDict d))) = length d
  /\ debugging_sessions (status (put (PList l))) = 0
  /\ agent_count (status (put (PDict d))) = agent_count (status st)
  /\ coordination_log_entries (status (put (PDict d)))
     = coordination_log_entries (status st).
Proof.
  intros d l st.
  apply (@status_counts_mapping_under_bare_key Z all_well d l st);
    vm_compute; reflexivity.
Defined.

(** X15 at a value holding an opaque object. *)
Lemma failed_write_changes_no_record_witness :
  let v := PDict [(KStr "agent", PObject "Agent")] in
  let st := initialized all_well in
  let r := @_store_coordination_memory Z all_well "swarms/metadata" v st in
  fst r = false
  /\ forall k', @_load_coordination_memory Z all_well k' (snd r)
                = @_load_coordination_memory Z all_well k' st.
Proof.
  intros v st r. split; [vm_compute; reflexivity|].
  apply (@failed_write_changes_no_record Z all_well "swarms/metadata" v st).
  vm_compute. reflexivity.
Defined.
